(** * PPK2 power-supply driver: sampling engine, statistics and mode control

    A shallow embedding of [meshtastic/powermon/ppk2.py] (class
    [PPK2PowerSupply]) together with the properties its specification
    states about it.

    - Python numbers are modelled through the interface [PyNum]; the
      program runs on the [float] instance (IEEE 754 binary64, the kernel's
      primitive floats, which is what a Python [float] is).  The instance on
      [Q] runs the same code in exact arithmetic (Python's
      [fractions.Fraction]).
    - Exceptions are values of [exn]; a computation that may raise returns a
      [result].
    - The external [ppk2_api] object and the base class are an oracle
      ([Driver]) that answers every call from the history of calls so far;
      the calls themselves are recorded in a trace of [event]s. *)

From Stdlib Require Import Floats ZArith QArith Lqa List String Bool Lia.
From Stdlib Require Import Permutation Qabs.
Import ListNotations.

Set Implicit Arguments.

(** ** Exceptions and results *)

Inductive exn : Type :=
| PowerError (msg : string)   (* meshtastic.powermon.power_supply.PowerError *)
| ValueError                  (* min() / max() of an empty list, int(nan) *)
| OverflowError               (* int(inf) *)
| ZeroDivisionError           (* x / 0 *)
| IndexError                  (* xs[-1] on an empty list *)
| DriverError (tag : nat).    (* anything raised inside ppk2_api or the base class *)

Inductive result (A : Type) : Type :=
| Ok (a : A)
| Raise (e : exn).

Arguments Ok {A} a.
Arguments Raise {A} e.

Definition rbind {A B} (x : result A) (f : A -> result B) : result B :=
  match x with
  | Ok a => f a
  | Raise e => Raise e
  end.

Declare Scope py_scope.
Delimit Scope py_scope with py.
Notation "x <- c1 ;; c2" := (rbind c1 (fun x => c2))
  (at level 61, c1 at next level, right associativity) : py_scope.

(** ** Python numbers *)

(** The operations of a Python number the program uses.  [num_of_Z] is the
    coercion applied to an [int] operand ([1000], [len(...)], the [0] that
    [sum] starts from) when the other operand is of type [A]. *)
Class PyNum (A : Type) : Type := {
  num_of_Z : Z -> A;
  num_add : A -> A -> A;
  num_mul : A -> A -> A;
  num_div : A -> A -> A;          (* the quotient, for a divisor that is not zero *)
  num_lt : A -> A -> bool;        (* x < y *)
  num_le : A -> A -> bool;        (* x <= y *)
  num_int : A -> result Z         (* int(x) *)
}.

(** *** binary64 *)

(** [int] to [float], rounding to nearest even as CPython does (exact below
    2^53, so for [0], [1000] and every length a list can have in practice). *)
Definition float_of_Z (z : Z) : float :=
  SF2Prim (binary_normalize prec emax z 0 false).

(** [int(x)] on a float: [ValueError] on NaN, [OverflowError] on an
    infinity, and otherwise the integer part, the fraction dropped
    (CPython's [float___trunc___impl]). *)
Definition float_int (x : float) : result Z :=
  match Prim2SF x with
  | S754_nan => Raise ValueError
  | S754_infinity _ => Raise OverflowError
  | S754_zero _ => Ok 0%Z
  | S754_finite s m e =>
      let a := Z.shiftl (Zpos m) e in
      Ok (if s then (- a)%Z else a)
  end.

#[export] Instance float_num : PyNum float := {|
  num_of_Z := float_of_Z;
  num_add := PrimFloat.add;
  num_mul := PrimFloat.mul;
  num_div := PrimFloat.div;
  num_lt := PrimFloat.ltb;
  num_le := PrimFloat.leb;
  num_int := float_int
|}.

(** *** exact rationals *)

Definition Q_int (q : Q) : result Z := Ok (Z.quot (Qnum q) (Zpos (Qden q))).

#[export] Instance exact_num : PyNum Q := {|
  num_of_Z := inject_Z;
  num_add := Qplus;
  num_mul := Qmult;
  num_div := Qdiv;
  num_lt := fun x y => negb (Qle_bool y x);
  num_le := Qle_bool;
  num_int := Q_int
|}.

(** ** The builtins the program calls *)

Section Builtins.
Context {A : Type} `{PyNum A}.

(** [x / n] for an [int] divisor [n]: the divisor is coerced to the type
    of [x]; a zero divisor raises. *)
Definition py_truediv (x : A) (n : Z) : result A :=
  if (n =? 0)%Z then Raise ZeroDivisionError else Ok (num_div x (num_of_Z n)).

(** [min(xs)]: the first item is kept until a later item compares [<] it. *)
Definition py_min (xs : list A) : result A :=
  match xs with
  | [] => Raise ValueError
  | x :: rest =>
      Ok (fold_left (fun m item => if num_lt item m then item else m) rest x)
  end.

(** [max(xs)]: the first item is kept until a later item compares [>] it. *)
Definition py_max (xs : list A) : result A :=
  match xs with
  | [] => Raise ValueError
  | x :: rest =>
      Ok (fold_left (fun m item => if num_lt m item then item else m) rest x)
  end.

(** [sum(xs)]: left to right, starting from the integer [0]. *)
Definition py_sum (xs : list A) : A := fold_left num_add xs (num_of_Z 0).

(** [len(xs)] *)
Definition py_len (xs : list A) : Z := Z.of_nat (List.length xs).

(** [xs[-1]] *)
Definition py_last (xs : list A) : result A :=
  match rev xs with
  | [] => Raise IndexError
  | x :: _ => Ok x
  end.
End Builtins.

(** From CPython 3.12 on, [sum] over floats adds the items after the first
    with Neumaier's compensated summation. *)
Definition cs_add (total : float * float) (x : float) : float * float :=
  let '(hi, lo) := total in
  let t := (hi + x)%float in
  if PrimFloat.leb (abs x) (abs hi)
  then (t, (lo + ((hi - t) + x))%float)
  else (t, (lo + ((x - t) + hi))%float).

Definition float_is_finite (x : float) : bool :=
  match Prim2SF x with
  | S754_zero _ | S754_finite _ _ _ => true
  | _ => false
  end.

Definition cs_to_double (total : float * float) : float :=
  let '(hi, lo) := total in
  if negb (PrimFloat.eqb lo 0%float) && float_is_finite lo
  then (hi + lo)%float else hi.

Definition py_sum_compensated (xs : list float) : float :=
  match xs with
  | [] => float_of_Z 0
  | x :: rest =>
      cs_to_double (fold_left cs_add rest ((float_of_Z 0 + x)%float, 0%float))
  end.

(** ** The object *)

(** The attributes of a [PPK2PowerSupply] that its methods read or write:
    [r] is the port the [ppk2_api.PPK2_MP] handle was opened on, [v] the
    configured voltage in volts (an attribute of the base class). *)
Record PPK2PowerSupply (A : Type) : Type := {
  r : string;
  current_measurements : list A;
  measuring : bool;
  v : A
}.

Section Statistics.
Context {A : Type} `{PyNum A}.
Local Open Scope py_scope.

Definition get_min_current_mA (self : PPK2PowerSupply A) : result A :=
  m <- py_min (current_measurements self) ;;
  py_truediv m 1000.

Definition get_max_current_mA (self : PPK2PowerSupply A) : result A :=
  m <- py_max (current_measurements self) ;;
  py_truediv m 1000.

(** The average for a given implementation of [sum]. *)
Definition average_current_mA_with (sum : list A -> A)
    (self : PPK2PowerSupply A) : result A :=
  q <- py_truediv (sum (current_measurements self))
         (py_len (current_measurements self)) ;;
  py_truediv q 1000.

(** [get_average_current_mA] with the plain [sum]: what runs on CPython up
    to 3.11, and on every CPython for samples that are not floats.  What
    runs on floats from CPython 3.12 on is
    [get_average_current_mA_compensated] below. *)
Definition get_average_current_mA : PPK2PowerSupply A -> result A :=
  average_current_mA_with py_sum.

Definition reset_measurements (self : PPK2PowerSupply A)
  : result (PPK2PowerSupply A) :=
  x <- py_last (current_measurements self) ;;
  Ok {| r := r self; current_measurements := [x];
        measuring := measuring self; v := v self |}.
End Statistics.


(** An object holding the given buffer. *)
Definition with_buffer {A} (self : PPK2PowerSupply A) (buf : list A)
  : PPK2PowerSupply A :=
  {| r := r self; current_measurements := buf;
     measuring := measuring self; v := v self |}.

(** ** Order facts *)

(** What the proofs about [min] and [max] need of [<] and [<=]: [<] is a
    strict partial order, and on values comparable with themselves (every
    value but a NaN) [<=] is its complement read backwards. *)
Class PyNumOrder (A : Type) `{PyNum A} : Prop := {
  num_lt_irrefl : forall x, num_lt x x = false;
  num_lt_trans : forall x y z,
    num_lt x y = true -> num_lt y z = true -> num_lt x z = true;
  num_le_of_not_lt : forall x y,
    num_le x x = true -> num_le y y = true ->
    num_lt y x = false -> num_le x y = true
}.



(** ** The outside world *)

Definition bytes : Type := list Byte.byte.

(** Every call that leaves the class, in the order the program makes it. *)
Inductive event : Type :=
| ListDevices                     (* ppk2_api.PPK2_API.list_devices() *)
| Open (portName : string)        (* ppk2_api.PPK2_MP(portName) *)
| GetModifiers                    (* r.get_modifiers() *)
| StartMeasuring                  (* r.start_measuring() *)
| StopMeasuring                   (* r.stop_measuring() *)
| GetData                         (* r.get_data() *)
| GetSamples (read_data : bytes)  (* r.get_samples(read_data) *)
| SetSourceVoltage (mV : Z)       (* r.set_source_voltage(mV) *)
| UseAmpereMeter                  (* r.use_ampere_meter() *)
| UseSourceMeter                  (* r.use_source_meter() *)
| ToggleDUTPower (state : string) (* r.toggle_DUT_power(state) *)
| ThreadStart                     (* measurement_thread.start() *)
| ThreadJoin                      (* measurement_thread.join() *)
| LogInfo (msg : string)          (* logging.info(msg) *)
| Sleep                           (* time.sleep(0.001) *)
| SuperInit                       (* super().__init__() *)
| SuperClose.                     (* super().close() *)

(** The [ppk2_api] device and the base class, which are not part of this
    file's program: each answer is a function of the calls made so far.
    [raises h ev] tells whether the call [ev], made after the history [h],
    raises; the other fields are what the calls return when they do not. *)
Record Driver (A : Type) : Type := {
  raises : list event -> event -> option exn;
  devices : list event -> list string;
  data : list event -> bytes;
  samples : list event -> bytes -> list A * bytes;
  base_v : A
}.

(** ** Stateful computations that may raise *)

(** A computation over a state [S]: the state it leaves is returned also
    when it raises, as an exception does not undo what was done before. *)
Definition ST (S X : Type) : Type := S -> result X * S.

Definition ret {S X} (x : X) : ST S X := fun s => (Ok x, s).

Definition raise {S X} (e : exn) : ST S X := fun s => (Raise e, s).

Definition bind {S X Y} (m : ST S X) (f : X -> ST S Y) : ST S Y :=
  fun s =>
    match m s with
    | (Ok x, s') => f x s'
    | (Raise e, s') => (Raise e, s')
    end.

Declare Scope st_scope.
Delimit Scope st_scope with st.
Notation "x <~ c1 ; c2" := (bind c1 (fun x => c2))
  (at level 61, c1 at next level, right associativity) : st_scope.
Notation "c1 ;> c2" := (bind c1 (fun _ => c2))
  (at level 61, right associativity) : st_scope.

(** A call that returns nothing of interest. *)
Definition call {A} (d : Driver A) (ev : event) : ST (list event) unit :=
  fun h =>
    (match raises d h ev with Some e => Raise e | None => Ok tt end, h ++ [ev]).

(** A call whose answer is read from the oracle. *)
Definition ask {A X} (d : Driver A) (ev : event) (answer : list event -> X)
  : ST (list event) X :=
  fun h =>
    (match raises d h ev with Some e => Raise e | None => Ok (answer h) end,
     h ++ [ev]).

(** Thread start and join, logging and sleeping do not fail. *)
Definition emit (ev : event) : ST (list event) unit :=
  fun h => (Ok tt, h ++ [ev]).

(** The object together with the history of calls. *)
Record machine (A : Type) : Type := {
  self : PPK2PowerSupply A;
  trace : list event
}.

Definition on_trace {A X} (m : ST (list event) X) : ST (machine A) X :=
  fun st =>
    let '(x, h) := m (trace st) in (x, {| self := self st; trace := h |}).

Definition on_self {A} (f : PPK2PowerSupply A -> PPK2PowerSupply A)
  : ST (machine A) unit :=
  fun st => (Ok tt, {| self := f (self st); trace := trace st |}).

Definition read_self {A X} (f : PPK2PowerSupply A -> X) : ST (machine A) X :=
  fun st => (Ok (f (self st)), st).

Definition lift {S X} (x : result X) : ST S X := fun s => (x, s).

(** ** The methods that talk to the device *)

(** The two [PowerError]s of the constructor, under the names the
    specification gives them. *)
Definition NoDeviceFound : exn := PowerError "No PPK2 devices found".
Definition AmbiguousDeviceSelection : exn :=
  PowerError "Multiple PPK2 devices found, please specify the portName".

(** [not portName] *)
Definition not_portName (portName : option string) : bool :=
  match portName with
  | None => true
  | Some s => (String.length s =? 0)%nat
  end.

Section Methods.
Context {A : Type} `{PyNum A}.
Variable d : Driver A.
Local Open Scope st_scope.

(** The constructor: it returns the object, or raises. *)
Definition __init__ (portName : option string)
  : ST (list event) (PPK2PowerSupply A) :=
  portName <~ (if not_portName portName then
                 devs <~ ask d ListDevices (devices d) ;
                 if (List.length devs =? 0)%nat then raise NoDeviceFound
                 else if (1 <? List.length devs)%nat
                      then raise AmbiguousDeviceSelection
                      else ret (hd EmptyString devs)
               else ret (match portName with Some s => s | None => EmptyString end)) ;
  call d (Open portName) ;>
  call d GetModifiers ;>
  call d StartMeasuring ;>
  emit ThreadStart ;>
  emit (LogInfo "Connected to Power Profiler Kit II (PPK2)") ;>
  call d SuperInit ;>
  ret {| r := portName; current_measurements := [num_of_Z 0];
         measuring := true; v := base_v d |}.

(** [self.current_measurements += samples] *)
Definition extend_measurements (new : list A) (o : PPK2PowerSupply A)
  : PPK2PowerSupply A :=
  {| r := r o; current_measurements := current_measurements o ++ new;
     measuring := measuring o; v := v o |}.

(** One turn of the [while] loop of [measurement_loop]. *)
Definition measurement_loop_body : ST (machine A) unit :=
  read_data <~ on_trace (ask d GetData (data d)) ;
  (match read_data with
   | [] => ret tt
   | _ :: _ =>
       decoded <~ on_trace (ask d (GetSamples read_data)
                              (fun h => samples d h read_data)) ;
       on_self (extend_measurements (fst decoded))
   end) ;>
  on_trace (emit Sleep).

(** How an observation of the loop ends: the loop returned, or it is still
    running after the turns it was given. *)
Inductive loop_status : Type := Returned | Running.

(** [measurement_loop], for at most [fuel] turns. *)
Fixpoint measurement_loop (fuel : nat) : ST (machine A) loop_status :=
  match fuel with
  | O => ret Running
  | S fuel' =>
      go <~ read_self (@measuring A) ;
      if go then measurement_loop_body ;> measurement_loop fuel'
      else ret Returned
  end.

Definition set_measuring (b : bool) (o : PPK2PowerSupply A)
  : PPK2PowerSupply A :=
  {| r := r o; current_measurements := current_measurements o;
     measuring := b; v := v o |}.

Definition close : ST (machine A) unit :=
  on_self (set_measuring false) ;>
  on_trace (call d StopMeasuring) ;>
  on_trace (emit ThreadJoin) ;>
  on_trace (call d SuperClose).

Definition setIsSupply (s : bool) : ST (machine A) unit :=
  volts <~ read_self (@v A) ;
  mV <~ lift (num_int (num_mul volts (num_of_Z 1000))) ;
  on_trace (call d (SetSourceVoltage mV)) ;>
  if negb s then on_trace (call d UseAmpereMeter)
  else on_trace (call d UseSourceMeter).

Definition powerOn : ST (machine A) unit :=
  on_trace (call d (ToggleDUTPower "ON")).

Definition powerOff : ST (machine A) unit :=
  on_trace (call d (ToggleDUTPower "OFF")).
End Methods.

(** ** Sample objects *)

(** An object as the constructor leaves it on port [/dev/ttyACM0], holding
    the given buffer, with 3.3 V configured. *)
Definition sample_object (buf : list float) : PPK2PowerSupply float :=
  {| r := "/dev/ttyACM0"; current_measurements := buf;
     measuring := true; v := 0x1.a666666666666p+1%float |}.

(** The same over the rationals. *)
Definition exact_object (buf : list Q) : PPK2PowerSupply Q :=
  {| r := "/dev/ttyACM0"; current_measurements := buf;
     measuring := true; v := (33 # 10)%Q |}.

(** 0.1, the double nearest to one tenth. *)
Definition tenth : float := 0x1.999999999999ap-4%float.

(** ** Reading a trace *)

(** The calls that allocate something: opening the device handle and
    starting the acquisition thread. *)
Definition allocates (ev : event) : bool :=
  match ev with
  | Open _ | ThreadStart => true
  | _ => false
  end.

(** No mode command occurs in [evs] unless a set-voltage command came
    before it ([seen] tells whether one came before [evs]). *)
Fixpoint voltage_before_mode (seen : bool) (evs : list event) : bool :=
  match evs with
  | [] => true
  | SetSourceVoltage _ :: rest => voltage_before_mode true rest
  | UseAmpereMeter :: rest | UseSourceMeter :: rest =>
      seen && voltage_before_mode seen rest
  | _ :: rest => voltage_before_mode seen rest
  end.

(** The mode command [setIsSupply s] ends with. *)
Definition mode_command (s : bool) : event :=
  if negb s then UseAmpereMeter else UseSourceMeter.

(** ** Exact values *)

(** The rational a finite binary64 number stands for. *)
Definition float_value (x : float) : option Q :=
  match Prim2SF x with
  | S754_zero _ => Some 0%Q
  | S754_finite s m e =>
      let mag := if (0 <=? e)%Z then inject_Z (Zpos m * 2 ^ e)
                 else (Zpos m # 2 ^ Z.to_pos (- e))%Q in
      Some (if s then (- mag)%Q else mag)
  | _ => None
  end.

(** [z] is [q] with its fraction dropped: rounded down when [q] is not
    negative, up when it is not positive. *)
Definition truncated (q : Q) (z : Z) : Prop :=
  ((0 <= q)%Q -> (inject_Z z <= q)%Q /\ (q < inject_Z z + 1)%Q) /\
  ((q <= 0)%Q -> (inject_Z z - 1 < q)%Q /\ (q <= inject_Z z)%Q).

(** ** Sample drivers *)

(** A device that answers every call: one port, a one-byte chunk at every
    poll, decoded into the sample 1000. *)
Definition steady_driver : Driver float :=
  {| raises := fun _ _ => None;
     devices := fun _ => ["/dev/ttyACM0"%string];
     data := fun _ => [Byte.x01];
     samples := fun _ _ => ([1000%float], []);
     base_v := 0%float |}.

(** The same device, except that decoding always raises. *)
Definition undecodable_driver : Driver float :=
  {| raises := fun _ ev => match ev with
                           | GetSamples _ => Some (DriverError 0)
                           | _ => None
                           end;
     devices := fun _ => ["/dev/ttyACM0"%string];
     data := fun _ => [Byte.x01];
     samples := fun _ _ => ([1000%float], []);
     base_v := 0%float |}.

(** Discovery finds nothing, or two ports. *)
Definition no_device_driver : Driver float :=
  {| raises := fun _ _ => None;
     devices := fun _ => [];
     data := fun _ => [];
     samples := fun _ _ => ([], []);
     base_v := 0%float |}.

Definition two_device_driver : Driver float :=
  {| raises := fun _ _ => None;
     devices := fun _ => ["/dev/ttyACM0"%string; "/dev/ttyACM1"%string];
     data := fun _ => [];
     samples := fun _ _ => ([], []);
     base_v := 0%float |}.

(** A running object with an empty history. *)
Definition sample_machine (buf : list float) : machine float :=
  {| self := sample_object buf; trace := [] |}.

(** 0.0015, the double nearest to one and a half thousandths; times 1000 it
    is exactly 1.5. *)
Definition millivolt_and_a_half : float := 0x1.89374bc6a7efap-10%float.

(** ** The buffer under the operations that touch it *)

(** What the loop and the caller do to a running object. *)
Inductive operation : Type :=
| LoopTurn        (* one turn of [measurement_loop] *)
| Reset           (* [reset_measurements()] *)
| QueryMin        (* [get_min_current_mA()] *)
| QueryMax        (* [get_max_current_mA()] *)
| QueryAverage.   (* [get_average_current_mA()] *)

Section Operations.
Context {A : Type} `{PyNum A}.
Variable d : Driver A.

Definition query {X} (f : PPK2PowerSupply A -> result X) : ST (machine A) unit :=
  fun st => (rbind (f (self st)) (fun _ => Ok tt), st).

Definition run_operation (o : operation) : ST (machine A) unit :=
  match o with
  | LoopTurn => measurement_loop_body d
  | Reset =>
      fun st =>
        match reset_measurements (self st) with
        | Ok o' => (Ok tt, {| self := o'; trace := trace st |})
        | Raise e => (Raise e, st)
        end
  | QueryMin => query get_min_current_mA
  | QueryMax => query get_max_current_mA
  | QueryAverage => query get_average_current_mA
  end.

(** The state after a sequence of operations; an operation that raises
    leaves its state to the next. *)
Definition run_operations (ops : list operation) (st : machine A) : machine A :=
  fold_left (fun st o => snd (run_operation o st)) ops st.
End Operations.

(** ** The buffer under interleaving *)

(** The loop runs in a thread of its own, and neither
    [self.current_measurements += samples] nor the assignment in
    [reset_measurements] is one step of the interpreter.  Here each is cut
    into the steps between which the other thread may run: loading the
    attribute, the call on the list object loaded, storing the attribute.
    List objects are named by their index in [objects]; [+=] extends the
    object it loaded in place, [reset_measurements] builds a new one. *)
Module Interleaving.

Inductive loop_point (A : Type) : Type :=
| LoopIdle
| LoopLoaded (tmp : nat) (decoded : list A)   (* attribute loaded for [+=] *)
| LoopExtended (tmp : nat).                   (* extended, not yet stored *)

Inductive caller_point (A : Type) : Type :=
| CallerIdle
| ResetLoaded (tmp : nat)     (* attribute loaded *)
| ResetIndexed (x : A)        (* [tmp[-1]] evaluated *)
| ResetBuilt (new : nat)      (* [[x]] built, not yet stored *)
| MinLoaded (tmp : nat)       (* attribute loaded for [min] *)
| MaxLoaded (tmp : nat)       (* attribute loaded for [max] *)
| SumLoaded (tmp : nat)       (* attribute loaded for [sum] *)
| SumDone (total : A)         (* [sum(tmp)] evaluated *)
| LenLoaded (total : A) (tmp : nat)   (* attribute loaded again for [len] *)
| CallerRaised (e : exn).

Arguments LoopIdle {A}.
Arguments LoopExtended {A} tmp.
Arguments CallerIdle {A}.
Arguments ResetLoaded {A} tmp.
Arguments ResetBuilt {A} new.
Arguments MinLoaded {A} tmp.
Arguments MaxLoaded {A} tmp.
Arguments SumLoaded {A} tmp.
Arguments CallerRaised {A} e.

Record cstate (A : Type) : Type := {
  objects : list (list A);
  attr : nat;                 (* the object [self.current_measurements] names *)
  loop_at : loop_point A;
  caller_at : caller_point A
}.

Inductive action (A : Type) : Type :=
| LoopLoad (decoded : list A)   (* [get_samples] returned; load the attribute *)
| LoopExtend
| LoopStore
| BeginReset
| BeginMin
| BeginMax
| BeginAverage
| CallerStep.                   (* the next step of the call in progress *)

Arguments LoopExtend {A}.
Arguments LoopStore {A}.
Arguments BeginReset {A}.
Arguments BeginMin {A}.
Arguments BeginMax {A}.
Arguments BeginAverage {A}.
Arguments CallerStep {A}.

Section Steps.
Context {A : Type} `{PyNum A}.

(** [objs[tmp].extend(new)] *)
Fixpoint extend_object (tmp : nat) (new : list A) (objs : list (list A))
  : list (list A) :=
  match objs, tmp with
  | [], _ => []
  | l :: rest, O => (l ++ new) :: rest
  | l :: rest, S n => l :: extend_object n new rest
  end.

Definition object_at (s : cstate A) (tmp : nat) : list A :=
  nth tmp (objects s) [].

Definition at_loop (s : cstate A) (p : loop_point A) : cstate A :=
  {| objects := objects s; attr := attr s; loop_at := p;
     caller_at := caller_at s |}.

Definition at_caller (s : cstate A) (p : caller_point A) : cstate A :=
  {| objects := objects s; attr := attr s; loop_at := loop_at s;
     caller_at := p |}.

Definition after {X} (x : result X) (p : caller_point A) : caller_point A :=
  match x with
  | Ok _ => p
  | Raise e => CallerRaised e
  end.

(** One step of one of the two threads; [None] when the thread is not at
    a point where it can take that step. *)
Definition step (a : action A) (s : cstate A) : option (cstate A) :=
  match a, loop_at s, caller_at s with
  | LoopLoad decoded, LoopIdle, _ =>
      Some (at_loop s (LoopLoaded (attr s) decoded))
  | LoopExtend, LoopLoaded tmp decoded, _ =>
      Some {| objects := extend_object tmp decoded (objects s);
              attr := attr s; loop_at := LoopExtended tmp;
              caller_at := caller_at s |}
  | LoopStore, LoopExtended tmp, _ =>
      Some {| objects := objects s; attr := tmp; loop_at := LoopIdle;
              caller_at := caller_at s |}
  | BeginReset, _, CallerIdle => Some (at_caller s (ResetLoaded (attr s)))
  | BeginMin, _, CallerIdle => Some (at_caller s (MinLoaded (attr s)))
  | BeginMax, _, CallerIdle => Some (at_caller s (MaxLoaded (attr s)))
  | BeginAverage, _, CallerIdle => Some (at_caller s (SumLoaded (attr s)))
  | CallerStep, _, ResetLoaded tmp =>
      Some (at_caller s
              match py_last (object_at s tmp) with
              | Ok x => ResetIndexed x
              | Raise e => CallerRaised e
              end)
  | CallerStep, _, ResetIndexed x =>
      Some {| objects := objects s ++ [[x]]; attr := attr s;
              loop_at := loop_at s;
              caller_at := ResetBuilt (List.length (objects s)) |}
  | CallerStep, _, ResetBuilt new =>
      Some {| objects := objects s; attr := new; loop_at := loop_at s;
              caller_at := CallerIdle |}
  | CallerStep, _, MinLoaded tmp =>
      Some (at_caller s
              (after (rbind (py_min (object_at s tmp))
                        (fun m => py_truediv m 1000)) CallerIdle))
  | CallerStep, _, MaxLoaded tmp =>
      Some (at_caller s
              (after (rbind (py_max (object_at s tmp))
                        (fun m => py_truediv m 1000)) CallerIdle))
  | CallerStep, _, SumLoaded tmp =>
      Some (at_caller s (SumDone (py_sum (object_at s tmp))))
  | CallerStep, _, SumDone total =>
      Some (at_caller s (LenLoaded total (attr s)))
  | CallerStep, _, LenLoaded total tmp =>
      Some (at_caller s
              (after (rbind (py_truediv total (py_len (object_at s tmp)))
                        (fun q => py_truediv q 1000)) CallerIdle))
  | _, _, _ => None
  end.

(** A schedule: the steps in the order the interpreter takes them. *)
Fixpoint run (sched : list (action A)) (s : cstate A) : option (cstate A) :=
  match sched with
  | [] => Some s
  | a :: rest =>
      match step a s with
      | Some s' => run rest s'
      | None => None
      end
  end.

(** The object as the constructor leaves it, both threads idle. *)
Definition start (buf : list A) : cstate A :=
  {| objects := [buf]; attr := 0; loop_at := LoopIdle;
     caller_at := CallerIdle |}.

(** The buffer: the object the attribute names. *)
Definition buffer (s : cstate A) : list A := object_at s (attr s).

(** Every list object is non-empty, every name in use names an object, and
    the caller has not raised. *)
Definition names (s : cstate A) (tmp : nat) : Prop :=
  (tmp < List.length (objects s))%nat.

Definition sound (s : cstate A) : Prop :=
  Forall (fun l => l <> []) (objects s) /\
  names s (attr s) /\
  match loop_at s with
  | LoopIdle => True
  | LoopLoaded tmp _ | LoopExtended tmp => names s tmp
  end /\
  match caller_at s with
  | ResetLoaded tmp | ResetBuilt tmp | MinLoaded tmp | MaxLoaded tmp
  | SumLoaded tmp | LenLoaded _ tmp => names s tmp
  | CallerIdle | ResetIndexed _ | SumDone _ => True
  | CallerRaised _ => False
  end.
End Steps.
End Interleaving.

(** ** More readings of the constructor and of the loop *)

(** The calls the constructor makes once it knows the port, in the order it
    makes them. *)
Definition init_calls (port : string) : list event :=
  [Open port; GetModifiers; StartMeasuring; ThreadStart;
   LogInfo "Connected to Power Profiler Kit II (PPK2)"; SuperInit].

(** The discovery call, made when no usable port name was given. *)
Definition discovery_calls (portName : option string) : list event :=
  if not_portName portName then [ListDevices] else [].

(** The attributes as the constructor writes them. *)
Definition fresh_object {A} `{PyNum A} (d : Driver A) (port : string)
  : PPK2PowerSupply A :=
  {| r := port; current_measurements := [num_of_Z 0];
     measuring := true; v := base_v d |}.

(** The calls the acquisition loop makes. *)
Definition loop_event (ev : event) : bool :=
  match ev with
  | GetData | GetSamples _ | Sleep => true
  | _ => false
  end.

(** The calls that come from the driver oracle in the loop. *)
Definition loop_call (ev : event) : bool :=
  match ev with
  | GetData | GetSamples _ => true
  | _ => false
  end.

(** A float that is not a NaN. *)
Definition not_nan (x : float) : bool := negb (is_nan x).

(** A device on which everything works until the base initialiser, which
    raises. *)
Definition broken_base_driver : Driver float :=
  {| raises := fun _ ev => match ev with
                           | SuperInit => Some (DriverError 7)
                           | _ => None
                           end;
     devices := fun _ => ["/dev/ttyACM0"%string];
     data := fun _ => [];
     samples := fun _ _ => ([], []);
     base_v := 0%float |}.

(** A device that never has data. *)
Definition quiet_driver : Driver float :=
  {| raises := fun _ _ => None;
     devices := fun _ => ["/dev/ttyACM0"%string];
     data := fun _ => [];
     samples := fun _ _ => ([], []);
     base_v := 0%float |}.

(** A device whose poll raises. *)
Definition unpollable_driver : Driver float :=
  {| raises := fun _ ev => match ev with
                           | GetData => Some (DriverError 3)
                           | _ => None
                           end;
     devices := fun _ => ["/dev/ttyACM0"%string];
     data := fun _ => [Byte.x01];
     samples := fun _ _ => ([1000%float], []);
     base_v := 0%float |}.

(** Two devices the program cannot tell apart: they raise alike, return the
    same ports and chunks, and decode to the same samples; what they return
    as undecoded remainder may differ. *)
Definition same_but_remainder {A} (d d' : Driver A) : Prop :=
  (forall h ev, raises d h ev = raises d' h ev) /\
  (forall h, data d h = data d' h) /\
  (forall h chunk, fst (samples d h chunk) = fst (samples d' h chunk)).

(** The steady device, returning a remainder at each decoding. *)
Definition steady_driver_with_remainder : Driver float :=
  {| raises := fun _ _ => None;
     devices := fun _ => ["/dev/ttyACM0"%string];
     data := fun _ => [Byte.x01];
     samples := fun _ _ => ([1000%float], [Byte.xff; Byte.xfe]);
     base_v := 0%float |}.

(** A device whose stop command raises. *)
Definition unstoppable_driver : Driver float :=
  {| raises := fun _ ev => match ev with
                           | StopMeasuring => Some (DriverError 5)
                           | _ => None
                           end;
     devices := fun _ => ["/dev/ttyACM0"%string];
     data := fun _ => [];
     samples := fun _ _ => ([], []);
     base_v := 0%float |}.

(** ** The arithmetic mean *)





(** * Properties *)

(** ** The order of binary64 numbers *)

Section SpecFloatOrder.

Lemma SFcompare_refl_not_Lt (a : spec_float) : SFltb a a = false.
Proof.
  unfold SFltb.
  destruct a as [s | s | | s m e]; try (destruct s); simpl;
    rewrite ?Z.compare_refl, ?Pcompare_refl; reflexivity.
Qed.

Lemma SFcompare_opp (a b : spec_float) :
  SFcompare b a = option_map CompOpp (SFcompare a b).
Proof.
  destruct a as [s | s | | s m e], b as [s' | s' | | s' m' e'];
    try (destruct s); try (destruct s'); simpl; try reflexivity.
  - rewrite (Z.compare_antisym e' e), (ZC4 m m').
    destruct (e' ?= e)%Z; simpl; rewrite ?CompOpp_involutive; reflexivity.
  - rewrite (Z.compare_antisym e' e), (ZC4 m m').
    destruct (e' ?= e)%Z; simpl; rewrite ?CompOpp_involutive; reflexivity.
Qed.

Lemma lex_lt_trans (e1 e2 e3 : Z) (m1 m2 m3 : positive) :
  match (e1 ?= e2)%Z with Eq => Pos.compare_cont Eq m1 m2 | c => c end = Lt ->
  match (e2 ?= e3)%Z with Eq => Pos.compare_cont Eq m2 m3 | c => c end = Lt ->
  match (e1 ?= e3)%Z with Eq => Pos.compare_cont Eq m1 m3 | c => c end = Lt.
Proof.
  change (Pos.compare_cont Eq) with Pos.compare.
  destruct (Z.compare_spec e1 e2), (Z.compare_spec e2 e3),
    (Z.compare_spec e1 e3); try lia; try discriminate; try reflexivity;
    rewrite ?Pos.compare_lt_iff; lia.
Qed.

Lemma SFltb_trans (a b c : spec_float) :
  SFltb a b = true -> SFltb b c = true -> SFltb a c = true.
Proof.
  unfold SFltb.
  destruct a as [sa | sa | | sa ma ea], b as [sb | sb | | sb mb eb],
    c as [sc | sc | | sc mc ec];
    try (destruct sa); try (destruct sb); try (destruct sc); simpl;
    try discriminate; try reflexivity.
  - (* three negative finite numbers *)
    intros Hab Hbc.
    assert (Hba : match (eb ?= ea)%Z with
                  | Eq => Pos.compare_cont Eq mb ma | c => c end = Lt).
    { rewrite (Z.compare_antisym ea eb), (ZC4 mb ma).
      destruct (ea ?= eb)%Z; simpl in *; try discriminate; try reflexivity.
      destruct (Pos.compare_cont Eq ma mb); simpl in *;
        try discriminate; reflexivity. }
    assert (Hcb : match (ec ?= eb)%Z with
                  | Eq => Pos.compare_cont Eq mc mb | c => c end = Lt).
    { rewrite (Z.compare_antisym eb ec), (ZC4 mc mb).
      destruct (eb ?= ec)%Z; simpl in *; try discriminate; try reflexivity.
      destruct (Pos.compare_cont Eq mb mc); simpl in *;
        try discriminate; reflexivity. }
    pose proof (lex_lt_trans _ _ _ _ _ _ Hcb Hba) as Hca.
    rewrite (Z.compare_antisym ec ea), (ZC4 ma mc).
    destruct (ec ?= ea)%Z; simpl in *; try discriminate; try reflexivity.
    rewrite Hca. reflexivity.
  - (* three positive finite numbers *)
    intros Hab Hbc.
    assert (Hab' : match (ea ?= eb)%Z with
                   | Eq => Pos.compare_cont Eq ma mb | c => c end = Lt).
    { destruct (ea ?= eb)%Z; try discriminate; try reflexivity.
      destruct (Pos.compare_cont Eq ma mb); try discriminate; reflexivity. }
    assert (Hbc' : match (eb ?= ec)%Z with
                   | Eq => Pos.compare_cont Eq mb mc | c => c end = Lt).
    { destruct (eb ?= ec)%Z; try discriminate; try reflexivity.
      destruct (Pos.compare_cont Eq mb mc); try discriminate; reflexivity. }
    pose proof (lex_lt_trans _ _ _ _ _ _ Hab' Hbc') as Hac.
    destruct (ea ?= ec)%Z; try discriminate; try reflexivity.
    rewrite Hac. reflexivity.
Qed.

Lemma SFleb_of_not_ltb (a b : spec_float) :
  SFleb a a = true -> SFleb b b = true ->
  SFltb b a = false -> SFleb a b = true.
Proof.
  unfold SFleb, SFltb. rewrite (SFcompare_opp a b).
  destruct a as [sa | sa | | sa ma ea], b as [sb | sb | | sb mb eb];
    try (destruct sa); try (destruct sb); simpl;
    try discriminate; try reflexivity; intros _ _;
    destruct (ea ?= eb)%Z; simpl; try discriminate; try reflexivity;
    destruct (Pos.compare_cont Eq ma mb); simpl;
    try discriminate; reflexivity.
Qed.
End SpecFloatOrder.

#[export] Instance float_order : @PyNumOrder float float_num.
Proof.
  constructor; simpl.
  - intros x. rewrite FloatAxioms.ltb_spec. apply SFcompare_refl_not_Lt.
  - intros x y z. rewrite !FloatAxioms.ltb_spec. apply SFltb_trans.
  - intros x y. rewrite !FloatAxioms.leb_spec, FloatAxioms.ltb_spec. apply SFleb_of_not_ltb.
Qed.

#[export] Instance exact_order : @PyNumOrder Q exact_num.
Proof.
  constructor; simpl.
  - intros x. apply negb_false_iff, Qle_bool_iff, Qle_refl.
  - intros x y z Hxy Hyz.
    apply negb_true_iff in Hxy, Hyz. apply negb_true_iff.
    destruct (Qle_bool z x) eqn:E; [exfalso | reflexivity].
    apply Qle_bool_iff in E.
    destruct (Qlt_le_dec x y) as [L1 | L1];
      [| apply Qle_bool_iff in L1; congruence].
    destruct (Qlt_le_dec y z) as [L2 | L2];
      [| apply Qle_bool_iff in L2; congruence].
    lra.
  - intros x y _ _ Hlt. now apply negb_false_iff in Hlt.
Qed.

(** ** What [min] and [max] return *)

Section MinMax.
Context {A : Type} {N : PyNum A} {O : PyNumOrder (A:=A)}.

Let min_step (m item : A) : A := if num_lt item m then item else m.
Let max_step (m item : A) : A := if num_lt m item then item else m.

Lemma num_lt_asym (x y : A) : num_lt x y = true -> num_lt y x = false.
Proof.
  intros Hxy. destruct (num_lt y x) eqn:Hyx; [| reflexivity].
  rewrite <- (num_lt_irrefl x). symmetry. exact (num_lt_trans _ _ _ Hxy Hyx).
Qed.

Lemma not_lt_trans_l (x y z : A) :
  num_lt x y = false -> num_lt z y = true -> num_lt x z = false.
Proof.
  intros Hxy Hzy. destruct (num_lt x z) eqn:Hxz; [| reflexivity].
  rewrite <- Hxy. symmetry. exact (num_lt_trans _ _ _ Hxz Hzy).
Qed.

Lemma not_lt_trans_r (x y z : A) :
  num_lt y x = false -> num_lt y z = true -> num_lt z x = false.
Proof.
  intros Hyx Hyz. destruct (num_lt z x) eqn:Hzx; [| reflexivity].
  rewrite <- Hyx. symmetry. exact (num_lt_trans _ _ _ Hyz Hzx).
Qed.

(** The running minimum is one of the items seen, and no item seen is
    below it. *)
Lemma fold_min_inv (rest seen : list A) (x : A) :
  In x seen -> (forall y, In y seen -> num_lt y x = false) ->
  let m := fold_left min_step rest x in
  In m (seen ++ rest) /\ forall y, In y (seen ++ rest) -> num_lt y m = false.
Proof.
  revert seen x. induction rest as [| item rest IH]; intros seen x Hin Hlow.
  - simpl. rewrite app_nil_r. split; assumption.
  - simpl. replace (seen ++ item :: rest) with ((seen ++ [item]) ++ rest)
      by (rewrite <- app_assoc; reflexivity).
    apply IH; unfold min_step.
    + destruct (num_lt item x); apply in_or_app; simpl; auto.
    + intros y Hy. apply in_app_or in Hy.
      destruct (num_lt item x) eqn:E.
      * destruct Hy as [Hy | [<- | []]].
        -- exact (@not_lt_trans_l _ _ _ (Hlow y Hy) E).
        -- apply num_lt_irrefl.
      * destruct Hy as [Hy | [<- | []]]; [apply Hlow; exact Hy | exact E].
Qed.

Lemma fold_max_inv (rest seen : list A) (x : A) :
  In x seen -> (forall y, In y seen -> num_lt x y = false) ->
  let m := fold_left max_step rest x in
  In m (seen ++ rest) /\ forall y, In y (seen ++ rest) -> num_lt m y = false.
Proof.
  revert seen x. induction rest as [| item rest IH]; intros seen x Hin Hup.
  - simpl. rewrite app_nil_r. split; assumption.
  - simpl. replace (seen ++ item :: rest) with ((seen ++ [item]) ++ rest)
      by (rewrite <- app_assoc; reflexivity).
    apply IH; unfold max_step.
    + destruct (num_lt x item); apply in_or_app; simpl; auto.
    + intros y Hy. apply in_app_or in Hy.
      destruct (num_lt x item) eqn:E.
      * destruct Hy as [Hy | [<- | []]].
        -- exact (@not_lt_trans_r _ _ _ (Hup y Hy) E).
        -- apply num_lt_irrefl.
      * destruct Hy as [Hy | [<- | []]]; [apply Hup; exact Hy | exact E].
Qed.

Lemma py_min_spec (xs : list A) :
  xs <> [] ->
  exists m, py_min xs = Ok m /\ In m xs /\
            forall y, In y xs -> num_lt y m = false.
Proof.
  destruct xs as [| x rest]; [congruence | intros _].
  eexists. split; [reflexivity |].
  apply (fold_min_inv rest [x] x); simpl; [auto |].
  intros y [<- | []]. apply num_lt_irrefl.
Qed.

Lemma py_max_spec (xs : list A) :
  xs <> [] ->
  exists m, py_max xs = Ok m /\ In m xs /\
            forall y, In y xs -> num_lt m y = false.
Proof.
  destruct xs as [| x rest]; [congruence | intros _].
  eexists. split; [reflexivity |].
  apply (fold_max_inv rest [x] x); simpl; [auto |].
  intros y [<- | []]. apply num_lt_irrefl.
Qed.
End MinMax.

Lemma py_len_nonzero {A} (xs : list A) : xs <> [] -> (py_len xs =? 0)%Z = false.
Proof.
  intros Hne. apply Z.eqb_neq. unfold py_len.
  destruct xs; [congruence | simpl; lia].
Qed.

Lemma average_with_unfold {A} `{PyNum A} (sum : list A -> A)
    (self : PPK2PowerSupply A) :
  current_measurements self <> [] ->
  average_current_mA_with sum self =
  Ok (num_div (num_div (sum (current_measurements self))
                 (num_of_Z (py_len (current_measurements self))))
        (num_of_Z 1000)).
Proof.
  intros Hne. unfold average_current_mA_with, py_truediv.
  rewrite (py_len_nonzero Hne). reflexivity.
Qed.

Lemma average_unfold {A} `{PyNum A} (self : PPK2PowerSupply A) :
  current_measurements self <> [] ->
  get_average_current_mA self =
  Ok (num_div (num_div (py_sum (current_measurements self))
                 (num_of_Z (py_len (current_measurements self))))
        (num_of_Z 1000)).
Proof. apply average_with_unfold. Qed.

Lemma float_not_nan_le_refl (x : float) : is_nan x = false -> (x <=? x)%float = true.
Proof.
  unfold is_nan. intros Hx. apply negb_false_iff in Hx.
  rewrite FloatAxioms.eqb_spec in Hx. rewrite FloatAxioms.leb_spec.
  unfold SFeqb, SFleb in *. destruct (SFcompare _ _) as [[| |] |]; congruence.
Qed.

Lemma float_1000 : float_of_Z 1000 = 1000%float.
Proof. reflexivity. Qed.

(** ** The statistics over binary64 samples *)

Lemma float_min_max (buf : list float) :
  buf <> [] ->
  exists m M : float,
    py_min buf = Ok m /\ py_max buf = Ok M /\ In m buf /\ In M buf /\
    (forall y, In y buf -> (y <? m)%float = false /\ (M <? y)%float = false) /\
    ((forall y, In y buf -> is_nan y = false) ->
     forall y, In y buf -> (m <=? y)%float = true /\ (y <=? M)%float = true).
Proof.
  intros Hne.
  destruct (py_min_spec (A:=float) Hne) as (m & Hm & Hmin & Hlow).
  destruct (py_max_spec (A:=float) Hne) as (M & HM & HMin & Hup).
  exists m, M. split; [exact Hm |]. split; [exact HM |].
  split; [exact Hmin |]. split; [exact HMin |]. split.
  - intros y Hy. split; [now apply Hlow | now apply Hup].
  - intros Hnan y Hy. split.
    + change ((m <=? y)%float) with (num_le m y).
      apply num_le_of_not_lt; simpl; auto using float_not_nan_le_refl.
    + change ((y <=? M)%float) with (num_le y M).
      apply num_le_of_not_lt; simpl; auto using float_not_nan_le_refl.
Qed.

(** ** Reset *)

Lemma py_last_app {A} (init : list A) (x : A) : py_last (init ++ [x]) = Ok x.
Proof. unfold py_last. rewrite rev_app_distr. reflexivity. Qed.

(** C3.  On a non-empty buffer [reset_measurements] succeeds and leaves the
    buffer holding exactly its former last element, nothing else of the
    object changed; the buffer [1, 2, 3] becomes [3]. *)
Theorem reset_keeps_last_sample {A} (self : PPK2PowerSupply A) (dflt : A) :
  current_measurements self <> [] ->
  reset_measurements self
  = Ok (with_buffer self [last (current_measurements self) dflt]) /\
  reset_measurements (sample_object [1; 2; 3]%float)
  = Ok (sample_object [3]%float).
Proof.
  intros Hne. split; [| reflexivity].
  destruct (exists_last Hne) as (init & x & Hbuf).
  unfold reset_measurements, with_buffer.
  rewrite Hbuf, py_last_app, last_last. reflexivity.
Qed.

Lemma reset_keeps_last_sample_witness :
  current_measurements (sample_object [1; 2; 3]%float) <> [] /\
  reset_measurements (sample_object [1; 2; 3]%float)
  = Ok (with_buffer (sample_object [1; 2; 3]%float)
          [last (current_measurements (sample_object [1; 2; 3]%float)) 0%float]).
Proof.
  assert (Hne : current_measurements (sample_object [1; 2; 3]%float) <> [])
    by discriminate.
  split; [exact Hne |].
  exact (proj1 (reset_keeps_last_sample (sample_object [1; 2; 3]%float)
                  0%float Hne)).
Defined.

(** ** Minimum, average and maximum compared *)

(** *** In exact arithmetic *)

Lemma exact_min_max (buf : list Q) :
  buf <> [] ->
  exists m M : Q,
    py_min buf = Ok m /\ py_max buf = Ok M /\
    forall y, In y buf -> (m <= y)%Q /\ (y <= M)%Q.
Proof.
  intros Hne.
  destruct (py_min_spec (A:=Q) Hne) as (m & Hm & _ & Hlow).
  destruct (py_max_spec (A:=Q) Hne) as (M & HM & _ & Hup).
  exists m, M. split; [exact Hm |]. split; [exact HM |].
  intros y Hy. split; apply Qle_bool_iff.
  - specialize (Hlow y Hy). simpl in Hlow. now apply negb_false_iff in Hlow.
  - specialize (Hup y Hy). simpl in Hup. now apply negb_false_iff in Hup.
Qed.

Lemma inject_Z_succ (n : nat) :
  (inject_Z (Z.of_nat (S n)) == inject_Z (Z.of_nat n) + 1)%Q.
Proof. rewrite Nat2Z.inj_succ. unfold Z.succ. now rewrite inject_Z_plus. Qed.

(** The running sum is at least (at most) what it started from plus the
    count times a lower (upper) bound of the items. *)
Lemma exact_sum_bounds (lo hi : Q) (xs : list Q) (acc : Q) :
  (forall y, In y xs -> (lo <= y)%Q /\ (y <= hi)%Q) ->
  (acc + inject_Z (Z.of_nat (List.length xs)) * lo
   <= fold_left Qplus xs acc)%Q /\
  (fold_left Qplus xs acc
   <= acc + inject_Z (Z.of_nat (List.length xs)) * hi)%Q.
Proof.
  revert acc. induction xs as [| x xs IH]; intros acc Hb.
  - change (fold_left Qplus [] acc) with acc.
    change (inject_Z (Z.of_nat (List.length (@nil Q)))) with 0%Q.
    split; lra.
  - assert (Hx : (lo <= x)%Q /\ (x <= hi)%Q) by (apply Hb; now left).
    assert (Hxs : forall y, In y xs -> (lo <= y)%Q /\ (y <= hi)%Q)
      by (intros y Hy; apply Hb; now right).
    destruct (IH (acc + x)%Q Hxs) as [IHlo IHhi].
    change (fold_left Qplus (x :: xs) acc) with (fold_left Qplus xs (acc + x)%Q).
    change (List.length (x :: xs)) with (S (List.length xs)).
    rewrite inject_Z_succ.
    set (n := inject_Z (Z.of_nat (List.length xs))) in *.
    assert (Elo : ((n + 1) * lo == n * lo + lo)%Q) by ring.
    assert (Ehi : ((n + 1) * hi == n * hi + hi)%Q) by ring.
    rewrite Elo, Ehi. clearbody n.
    set (nlo := (n * lo)%Q) in *. set (nhi := (n * hi)%Q) in *.
    destruct Hx. split; lra.
Qed.

Lemma exact_count_pos (xs : list Q) :
  xs <> [] -> (0 < inject_Z (py_len xs))%Q.
Proof.
  intros Hne. unfold py_len. rewrite <- (Zlt_Qlt 0).
  destruct xs; [congruence | simpl; lia].
Qed.

Lemma exact_min_le_average_le_max (self : PPK2PowerSupply Q) :
  current_measurements self <> [] ->
  exists a b c : Q,
    get_min_current_mA self = Ok a /\
    get_average_current_mA self = Ok b /\
    get_max_current_mA self = Ok c /\
    (a <= b)%Q /\ (b <= c)%Q.
Proof.
  intros Hne.
  destruct (exact_min_max Hne) as (m & M & Hm & HM & Hb).
  pose proof (@exact_sum_bounds m M (current_measurements self) 0 Hb)
    as [Hlo Hhi].
  pose proof (exact_count_pos Hne) as Hn.
  exists (m / inject_Z 1000)%Q,
    (py_sum (current_measurements self)
     / inject_Z (py_len (current_measurements self)) / inject_Z 1000)%Q,
    (M / inject_Z 1000)%Q.
  split; [unfold get_min_current_mA; rewrite Hm; reflexivity |].
  split; [rewrite (average_unfold self Hne); reflexivity |].
  split; [unfold get_max_current_mA; rewrite HM; reflexivity |].
  assert (H1000 : (0 < inject_Z 1000)%Q) by reflexivity.
  unfold py_sum, py_len in *. simpl (num_add) in *. simpl (num_of_Z 0) in *.
  change (inject_Z 0) with 0%Q.
  set (s := fold_left Qplus (current_measurements self) 0%Q) in *.
  set (n := inject_Z (Z.of_nat (List.length (current_measurements self)))) in *.
  split.
  - apply Qle_shift_div_l; [exact H1000 |].
    unfold Qdiv at 1. rewrite <- Qmult_assoc.
    rewrite (Qmult_comm (/ inject_Z 1000)), Qmult_inv_r, Qmult_1_r
      by (intro E; rewrite E in H1000; discriminate).
    apply Qle_shift_div_l; [exact Hn | lra].
  - apply Qle_shift_div_r; [exact H1000 |].
    unfold Qdiv at 2. rewrite <- Qmult_assoc.
    rewrite (Qmult_comm (/ inject_Z 1000)), Qmult_inv_r, Qmult_1_r
      by (intro E; rewrite E in H1000; discriminate).
    apply Qle_shift_div_r; [exact Hn | lra].
Qed.

(** *** In binary64 arithmetic *)

(** C2, refuted as stated.  On the buffer [0.1, 0.1, 0.1] the sum is
    0.30000000000000004, the mean 0.10000000000000002 and the average
    0.00010000000000000002 mA, one unit in the last place above the maximum
    0.0001 mA; the compensated [sum] of CPython 3.12 gives the same. *)
Lemma average_exceeds_max_on_three_tenths :
  get_min_current_mA (sample_object [tenth; tenth; tenth])
  = Ok 0x1.a36e2eb1c432dp-14%float /\
  get_average_current_mA (sample_object [tenth; tenth; tenth])
  = Ok 0x1.a36e2eb1c432ep-14%float /\
  get_max_current_mA (sample_object [tenth; tenth; tenth])
  = Ok 0x1.a36e2eb1c432dp-14%float /\
  average_current_mA_with py_sum_compensated
    (sample_object [tenth; tenth; tenth])
  = Ok 0x1.a36e2eb1c432ep-14%float /\
  (0x1.a36e2eb1c432ep-14 <=? 0x1.a36e2eb1c432dp-14)%float = false /\
  ~ (exists a b c : float,
        get_min_current_mA (sample_object [tenth; tenth; tenth]) = Ok a /\
        get_average_current_mA (sample_object [tenth; tenth; tenth]) = Ok b /\
        get_max_current_mA (sample_object [tenth; tenth; tenth]) = Ok c /\
        (a <=? b)%float = true /\ (b <=? c)%float = true).
Proof.
  split; [reflexivity |]. split; [reflexivity |]. split; [reflexivity |].
  split; [reflexivity |]. split; [reflexivity |].
  intros (a & b & c & _ & Hb & Hc & _ & Hle).
  change (get_average_current_mA (sample_object [tenth; tenth; tenth]))
    with (Ok 0x1.a36e2eb1c432ep-14%float) in Hb.
  change (get_max_current_mA (sample_object [tenth; tenth; tenth]))
    with (Ok 0x1.a36e2eb1c432dp-14%float) in Hc.
  injection Hb as <-. injection Hc as <-. discriminate Hle.
Qed.

(** C2, as amended.  Run in exact rational arithmetic, the three queries on
    a non-empty buffer return [min <= average <= max].  In binary64, which
    is what the program computes in, the guarantee is on the extremes only:
    for a non-empty buffer without NaN the minimum is [m / 1000] and the
    maximum [M / 1000] for samples [m <= M] of the buffer that bound every
    sample. *)
Theorem min_average_max_ordering :
  (forall self : PPK2PowerSupply Q,
      current_measurements self <> [] ->
      exists a b c : Q,
        get_min_current_mA self = Ok a /\
        get_average_current_mA self = Ok b /\
        get_max_current_mA self = Ok c /\
        (a <= b)%Q /\ (b <= c)%Q) /\
  (forall self : PPK2PowerSupply float,
      current_measurements self <> [] ->
      (forall y, In y (current_measurements self) -> is_nan y = false) ->
      exists m M : float,
        In m (current_measurements self) /\
        In M (current_measurements self) /\
        get_min_current_mA self = Ok (m / 1000)%float /\
        get_max_current_mA self = Ok (M / 1000)%float /\
        (m <=? M)%float = true /\
        forall y, In y (current_measurements self) ->
                  (m <=? y)%float = true /\ (y <=? M)%float = true).
Proof.
  split; [exact exact_min_le_average_le_max |].
  intros self Hne Hnan.
  destruct (float_min_max Hne) as (m & M & Hm & HM & Hmin & HMin & _ & Ht).
  exists m, M.
  split; [exact Hmin |]. split; [exact HMin |].
  split; [unfold get_min_current_mA; rewrite Hm; reflexivity |].
  split; [unfold get_max_current_mA; rewrite HM; reflexivity |].
  split; [exact (proj2 (Ht Hnan m Hmin)) | exact (Ht Hnan)].
Qed.

Lemma min_average_max_ordering_witness :
  current_measurements (exact_object [1 # 10; 1 # 10; 1 # 10]%Q) <> [] /\
  exists a b c : Q,
    get_min_current_mA (exact_object [1 # 10; 1 # 10; 1 # 10]%Q) = Ok a /\
    get_average_current_mA (exact_object [1 # 10; 1 # 10; 1 # 10]%Q) = Ok b /\
    get_max_current_mA (exact_object [1 # 10; 1 # 10; 1 # 10]%Q) = Ok c /\
    (a <= b)%Q /\ (b <= c)%Q.
Proof.
  assert (Hne : current_measurements
                  (exact_object [1 # 10; 1 # 10; 1 # 10]%Q) <> [])
    by discriminate.
  split; [exact Hne |].
  exact (proj1 min_average_max_ordering
           (exact_object [1 # 10; 1 # 10; 1 # 10]%Q) Hne).
Defined.

(** ** The average against the arithmetic mean *)






(** ** The constructor *)

Section Constructor.
Context {A : Type} `{PyNum A}.
Variable d : Driver A.

Lemma init_discovery (portName : option string) (h : list event) :
  not_portName portName = true ->
  raises d h ListDevices = None ->
  (List.length (devices d h) <> 1)%nat ->
  __init__ d portName h
  = (Raise (if (List.length (devices d h) =? 0)%nat then NoDeviceFound
            else AmbiguousDeviceSelection),
     h ++ [ListDevices]).
Proof.
  intros Hport Hok Hlen. unfold __init__, bind, ask.
  rewrite Hport, Hok.
  destruct (List.length (devices d h) =? 0)%nat eqn:E0; [reflexivity |].
  destruct (1 <? List.length (devices d h))%nat eqn:E1; [reflexivity |].
  apply Nat.eqb_neq in E0. apply Nat.ltb_ge in E1. lia.
Qed.
End Constructor.

(** C4.  Called without a port name, on a discovery that returns no
    device, the constructor raises the no-device [PowerError], and the only
    call it has made is the discovery: no handle was opened and no thread
    started. *)
Theorem open_without_device_fails {A} `{PyNum A} (d : Driver A)
    (portName : option string) (h : list event) :
  not_portName portName = true ->
  raises d h ListDevices = None ->
  devices d h = [] ->
  exists new : list event,
    __init__ d portName h = (Raise NoDeviceFound, h ++ new) /\
    new = [ListDevices] /\
    forallb (fun ev => negb (allocates ev)) new = true.
Proof.
  intros Hport Hok Hdevs. exists [ListDevices].
  split; [| split; reflexivity].
  rewrite (init_discovery d portName h Hport Hok); rewrite Hdevs.
  - reflexivity.
  - discriminate.
Qed.

Lemma open_without_device_fails_witness :
  not_portName None = true /\
  raises no_device_driver [] ListDevices = None /\
  devices no_device_driver [] = [] /\
  exists new : list event,
    __init__ no_device_driver None [] = (Raise NoDeviceFound, [] ++ new) /\
    new = [ListDevices] /\
    forallb (fun ev => negb (allocates ev)) new = true.
Proof.
  split; [reflexivity |]. split; [reflexivity |]. split; [reflexivity |].
  apply (open_without_device_fails no_device_driver None []); reflexivity.
Defined.

(** C5.  Called without a port name, on a discovery that returns two or
    more devices, the constructor raises the multiple-devices [PowerError];
    it opens none of them. *)
Theorem open_with_several_devices_fails {A} `{PyNum A} (d : Driver A)
    (portName : option string) (h : list event) :
  not_portName portName = true ->
  raises d h ListDevices = None ->
  (2 <= List.length (devices d h))%nat ->
  exists new : list event,
    __init__ d portName h = (Raise AmbiguousDeviceSelection, h ++ new) /\
    new = [ListDevices] /\
    forallb (fun ev => negb (allocates ev)) new = true.
Proof.
  intros Hport Hok Hdevs. exists [ListDevices].
  split; [| split; reflexivity].
  rewrite (init_discovery d portName h Hport Hok) by lia.
  destruct (List.length (devices d h) =? 0)%nat eqn:E0; [| reflexivity].
  apply Nat.eqb_eq in E0. lia.
Qed.

Lemma open_with_several_devices_fails_witness :
  not_portName None = true /\
  raises two_device_driver [] ListDevices = None /\
  (2 <= List.length (devices two_device_driver []))%nat /\
  exists new : list event,
    __init__ two_device_driver None []
    = (Raise AmbiguousDeviceSelection, [] ++ new) /\
    new = [ListDevices] /\
    forallb (fun ev => negb (allocates ev)) new = true.
Proof.
  split; [reflexivity |]. split; [reflexivity |].
  split; [simpl; lia |].
  apply (open_with_several_devices_fails two_device_driver None []).
  - reflexivity.
  - reflexivity.
  - simpl; lia.
Defined.

(** ** Supply mode *)

Section SupplyMode.
Context {A : Type} `{PyNum A}.
Variable d : Driver A.

(** Everything [setIsSupply] can do, by what [int] and the two device
    calls answer. *)
Lemma setIsSupply_cases (s : bool) (st : machine A) :
  match num_int (num_mul (v (self st)) (num_of_Z 1000)) with
  | Raise e => setIsSupply d s st = (Raise e, st)
  | Ok mV =>
      match raises d (trace st) (SetSourceVoltage mV) with
      | Some e =>
          setIsSupply d s st
          = (Raise e, {| self := self st;
                         trace := trace st ++ [SetSourceVoltage mV] |})
      | None =>
          setIsSupply d s st
          = (match raises d (trace st ++ [SetSourceVoltage mV])
                     (mode_command s) with
             | Some e => Raise e
             | None => Ok tt
             end,
             {| self := self st;
                trace := trace st ++ [SetSourceVoltage mV; mode_command s] |})
      end
  end.
Proof.
  unfold setIsSupply, bind, read_self, lift, on_trace, call, mode_command.
  destruct st as [o h]. simpl.
  destruct (num_int (num_mul (v o) (num_of_Z 1000))) as [mV | e];
    [| reflexivity].
  destruct (raises d h (SetSourceVoltage mV)) as [e |]; [reflexivity |].
  destruct s; simpl; rewrite <- app_assoc; simpl;
    destruct (raises d (h ++ [SetSourceVoltage mV]) _); reflexivity.
Qed.
End SupplyMode.

(** C6.  [setIsSupply] programs the voltage first and then switches the
    mode, for either mode.  With [mV] the value of [int(self.v * 1000)]:
    the first call is the set-voltage command with [mV]; if it raises, the
    method ends there, no mode command sent; if it does not, the next and
    last call is the mode command of the request, source meter for supply
    and ampere meter otherwise, and the method returns normally unless
    that command raises.  So when nothing raises the calls are exactly the
    set-voltage command followed by the mode command.  When [int] raises
    no call is made.  In every case no mode command is sent before the
    voltage is, and the object is left as it was. *)
Theorem voltage_is_set_before_mode {A} `{PyNum A} (d : Driver A) (s : bool)
    (st : machine A) :
  (exists new : list event,
      trace (snd (setIsSupply d s st)) = trace st ++ new /\
      voltage_before_mode false new = true) /\
  self (snd (setIsSupply d s st)) = self st /\
  (forall e : exn,
      num_int (num_mul (v (self st)) (num_of_Z 1000)) = Raise e ->
      setIsSupply d s st = (Raise e, st)) /\
  (forall mV : Z,
      num_int (num_mul (v (self st)) (num_of_Z 1000)) = Ok mV ->
      (forall e : exn,
          raises d (trace st) (SetSourceVoltage mV) = Some e ->
          fst (setIsSupply d s st) = Raise e /\
          trace (snd (setIsSupply d s st))
          = trace st ++ [SetSourceVoltage mV]) /\
      (raises d (trace st) (SetSourceVoltage mV) = None ->
       trace (snd (setIsSupply d s st))
       = trace st ++ [SetSourceVoltage mV;
                      if s then UseSourceMeter else UseAmpereMeter] /\
       fst (setIsSupply d s st)
       = match raises d (trace st ++ [SetSourceVoltage mV])
                 (if s then UseSourceMeter else UseAmpereMeter) with
         | Some e => Raise e
         | None => Ok tt
         end)).
Proof.
  pose proof (setIsSupply_cases d s st) as Hc.
  assert (Hmode : mode_command s = if s then UseSourceMeter else UseAmpereMeter)
    by (destruct s; reflexivity).
  rewrite Hmode in Hc.
  destruct (num_int (num_mul (v (self st)) (num_of_Z 1000))) as [mV | e].
  - destruct (raises d (trace st) (SetSourceVoltage mV)) as [e |] eqn:Hvolt.
    + rewrite Hc. cbn [fst snd self trace].
      split; [exists [SetSourceVoltage mV]; split; reflexivity |].
      split; [reflexivity |]. split; [discriminate |].
      intros mV' E. injection E as <-. rewrite Hvolt. split.
      * intros e' E. injection E as <-. split; reflexivity.
      * discriminate.
    + rewrite Hc. cbn [fst snd self trace].
      split.
      { eexists. split; [reflexivity |]. destruct s; reflexivity. }
      split; [reflexivity |]. split; [discriminate |].
      intros mV' E. injection E as <-. rewrite Hvolt. split.
      * discriminate.
      * intros _. split; reflexivity.
  - rewrite Hc. cbn [fst snd self trace].
    split; [exists []; split; [now rewrite app_nil_r | reflexivity] |].
    split; [reflexivity |]. split.
    + intros e' E. injection E as <-. destruct st; reflexivity.
    + discriminate.
Qed.

(** ** The millivolt argument *)

Lemma truncated_between (r k : Q) (z : Z) (neg : bool) :
  (0 < r)%Q \/ (r == k)%Q ->
  (k <= r)%Q -> (r < k + 1)%Q ->
  (inject_Z z == if neg then - k else k)%Q ->
  truncated (if neg then - r else r) z.
Proof.
  intros Hpos Hlo Hhi Hz. unfold truncated. rewrite Hz.
  destruct neg; split; intros Hq; split; destruct Hpos; lra.
Qed.

Lemma pow2_pos_as_Z (e : Z) :
  (e < 0)%Z -> Zpos (2 ^ Z.to_pos (- e)) = (2 ^ (- e))%Z.
Proof.
  intros He. rewrite Pos2Z.inj_pow, Z2Pos.id by lia. reflexivity.
Qed.

Lemma float_int_truncates (x : float) :
  match float_int x with
  | Ok z => exists q : Q, float_value x = Some q /\ truncated q z
  | Raise _ => float_value x = None
  end.
Proof.
  unfold float_int, float_value.
  destruct (Prim2SF x) as [s | s | | s m e]; try reflexivity.
  - exists 0%Q. split; [reflexivity |].
    unfold truncated. change (inject_Z 0) with 0%Q. split; intros _; split; lra.
  - cbv zeta. eexists. split; [reflexivity |].
    destruct (0 <=? e)%Z eqn:He.
    + apply Z.leb_le in He. rewrite Z.shiftl_mul_pow2 by exact He.
      apply truncated_between with (k := inject_Z (Zpos m * 2 ^ e)).
      * right. reflexivity.
      * apply Qle_refl.
      * lra.
      * destruct s; [rewrite inject_Z_opp |]; reflexivity.
    + apply Z.leb_gt in He.
      assert (Hs : Z.shiftl (Zpos m) e = (Zpos m / 2 ^ (- e))%Z).
      { rewrite <- Z.shiftr_div_pow2 by lia. unfold Z.shiftr.
        now rewrite Z.opp_involutive. }
      rewrite Hs.
      pose proof (pow2_pos_as_Z He) as HP.
      assert (HD : (0 < 2 ^ (- e))%Z) by (apply Z.pow_pos_nonneg; lia).
      apply truncated_between with (k := inject_Z (Zpos m / 2 ^ (- e))).
      * left. reflexivity.
      * unfold Qle. cbn [Qnum Qden inject_Z]. rewrite HP.
        pose proof (Z.mul_div_le (Zpos m) (2 ^ (- e)) HD). lia.
      * change 1%Q with (inject_Z 1). rewrite <- inject_Z_plus.
        unfold Qlt. cbn [Qnum Qden inject_Z]. rewrite HP.
        pose proof (Z.mul_succ_div_gt (Zpos m) (2 ^ (- e)) HD). lia.
      * destruct s; [rewrite inject_Z_opp |]; reflexivity.
Qed.

(** C10.  [setIsSupply] computes [int(self.v * 1000)] in binary64.  When
    that is an integer [mV], the first call made is the set-voltage command
    with argument [mV], and [mV] is the exact value of the product
    [self.v * 1000] with its fraction dropped (toward zero, not to nearest);
    when [int] raises (the product is a NaN or infinite) the exception
    leaves the method before any call.  For 0.0015 V the product is 1.5
    and the argument 1; for -0.0015 V it is -1. *)
Theorem source_voltage_is_truncated_millivolts (d : Driver float) (s : bool)
    (st : machine float) :
  match float_int (v (self st) * 1000)%float with
  | Ok mV =>
      (exists rest : list event,
          trace (snd (setIsSupply d s st))
          = trace st ++ SetSourceVoltage mV :: rest) /\
      (exists q : Q,
          float_value (v (self st) * 1000)%float = Some q /\ truncated q mV)
  | Raise e =>
      setIsSupply d s st = (Raise e, st) /\
      float_value (v (self st) * 1000)%float = None
  end /\
  (millivolt_and_a_half * 1000)%float = 1.5%float /\
  float_int (millivolt_and_a_half * 1000)%float = Ok 1%Z /\
  float_int (- millivolt_and_a_half * 1000)%float = Ok (-1)%Z.
Proof.
  split; [| split; [| split]; reflexivity].
  pose proof (setIsSupply_cases d s st) as Hc.
  pose proof (float_int_truncates (v (self st) * 1000)%float) as Ht.
  change (num_int (num_mul (v (self st)) (num_of_Z 1000)))
    with (float_int (v (self st) * 1000)%float) in Hc.
  destruct (float_int (v (self st) * 1000)%float) as [mV | e].
  - split; [| exact Ht].
    destruct (raises d (trace st) (SetSourceVoltage mV)); rewrite Hc; simpl.
    + exists []. reflexivity.
    + exists [mode_command s]. reflexivity.
  - split; [exact Hc | exact Ht].
Qed.

(** ** The acquisition loop *)

(** C8, refuted as stated.  With a device whose decoder raises, the first
    turn of the loop ends the loop with that exception: however many turns
    it is given, the device is polled once and never again, and nothing is
    logged. *)
Lemma decode_failure_ends_the_loop :
  measurement_loop undecodable_driver 5 (sample_machine [0%float])
  = (Raise (DriverError 0),
     {| self := sample_object [0%float];
        trace := [GetData; GetSamples [Byte.x01]] |}) /\
  measurement_loop steady_driver 2 (sample_machine [0%float])
  = (Ok Running,
     {| self := sample_object [0; 1000; 1000]%float;
        trace := [GetData; GetSamples [Byte.x01]; Sleep;
                  GetData; GetSamples [Byte.x01]; Sleep] |}).
Proof. split; reflexivity. Qed.

(** One turn of the loop, then the rest. *)
Lemma measurement_loop_turn {A} `{PyNum A} (d : Driver A) (fuel : nat)
    (st : machine A) :
  measurement_loop d (S fuel) st
  = if measuring (self st)
    then match measurement_loop_body d st with
         | (Ok _, st') => measurement_loop d fuel st'
         | (Raise e, st') => (Raise e, st')
         end
    else (Ok Returned, st).
Proof.
  cbn [measurement_loop]. unfold bind, read_self, ret.
  destruct (measuring (self st)); reflexivity.
Qed.

Lemma body_decode_failure {A} `{PyNum A} (d : Driver A) (st : machine A)
    (e : exn) :
  raises d (trace st) GetData = None ->
  data d (trace st) <> [] ->
  raises d (trace st ++ [GetData]) (GetSamples (data d (trace st))) = Some e ->
  measurement_loop_body d st
  = (Raise e,
     {| self := self st;
        trace := trace st ++ [GetData; GetSamples (data d (trace st))] |}).
Proof.
  intros Hpoll Hchunk Hdec. destruct st as [o h]. simpl in *.
  unfold measurement_loop_body, bind, on_trace, ask. simpl.
  rewrite Hpoll.
  destruct (data d h) as [| b chunk]; [congruence |].
  cbn [trace self]. rewrite Hdec, <- app_assoc. reflexivity.
Qed.

(** C8, as amended.  In a turn of the loop in which the poll returns a
    non-empty chunk and decoding it raises, the exception leaves
    [measurement_loop]: the loop ends there with that exception, having
    made the poll and the decoding call and nothing else (no log entry, no
    sleep, no further poll), and the object, its buffer included, is as it
    was. *)
Theorem decode_failure_propagates {A} `{PyNum A} (d : Driver A)
    (st : machine A) (fuel : nat) (e : exn) :
  measuring (self st) = true ->
  raises d (trace st) GetData = None ->
  data d (trace st) <> [] ->
  raises d (trace st ++ [GetData]) (GetSamples (data d (trace st))) = Some e ->
  measurement_loop d (S fuel) st
  = (Raise e,
     {| self := self st;
        trace := trace st ++ [GetData; GetSamples (data d (trace st))] |}).
Proof.
  intros Hrun Hpoll Hchunk Hdec.
  rewrite measurement_loop_turn, Hrun.
  rewrite (body_decode_failure d st Hpoll Hchunk Hdec). reflexivity.
Qed.

Lemma decode_failure_propagates_witness :
  measurement_loop undecodable_driver 5 (sample_machine [0%float])
  = (Raise (DriverError 0),
     {| self := self (sample_machine [0%float]);
        trace := trace (sample_machine [0%float])
                 ++ [GetData;
                     GetSamples (data undecodable_driver
                                   (trace (sample_machine [0%float])))] |}).
Proof.
  apply (@decode_failure_propagates _ _ undecodable_driver
           (sample_machine [0%float]) 4 (DriverError 0)).
  - reflexivity.
  - reflexivity.
  - discriminate.
  - reflexivity.
Defined.

(** ** Closing *)

Section Close.
Context {A : Type} `{PyNum A}.
Variable d : Driver A.

Lemma close_cases (st : machine A) :
  match raises d (trace st) StopMeasuring with
  | Some e =>
      close d st
      = (Raise e, {| self := set_measuring false (self st);
                     trace := trace st ++ [StopMeasuring] |})
  | None =>
      close d st
      = (match raises d (trace st ++ [StopMeasuring; ThreadJoin])
                 SuperClose with
         | Some e => Raise e
         | None => Ok tt
         end,
         {| self := set_measuring false (self st);
            trace := trace st ++ [StopMeasuring; ThreadJoin; SuperClose] |})
  end.
Proof.
  unfold close, bind, on_self, on_trace, call, emit.
  destruct st as [o h]. simpl.
  destruct (raises d h StopMeasuring) as [e |]; [reflexivity |].
  rewrite <- !app_assoc. simpl.
  destruct (raises d (h ++ [StopMeasuring; ThreadJoin]) SuperClose);
    reflexivity.
Qed.
End Close.

(** C9, refuted as stated.  After [close], a statistics query returns a
    value and a second [close] returns normally, having sent the device the
    stop command again. *)
Lemma queries_and_close_after_close_succeed :
  close steady_driver (sample_machine [0; 1000]%float)
  = (Ok tt,
     {| self := set_measuring false (sample_object [0; 1000]%float);
        trace := [StopMeasuring; ThreadJoin; SuperClose] |}) /\
  get_max_current_mA (set_measuring false (sample_object [0; 1000]%float))
  = Ok 1%float /\
  close steady_driver
    (snd (close steady_driver (sample_machine [0; 1000]%float)))
  = (Ok tt,
     {| self := set_measuring false (sample_object [0; 1000]%float);
        trace := [StopMeasuring; ThreadJoin; SuperClose;
                  StopMeasuring; ThreadJoin; SuperClose] |}).
Proof. split; [| split]; reflexivity. Qed.

(** ** The buffer is never empty *)

Section BufferInvariant.
Context {A : Type} `{PyNum A}.
Variable d : Driver A.

(** A successful constructor leaves the buffer holding one zero. *)
Lemma init_buffer (portName : option string) (h h' : list event)
    (obj : PPK2PowerSupply A) :
  __init__ d portName h = (Ok obj, h') ->
  current_measurements obj = [num_of_Z 0] /\ measuring obj = true.
Proof.
  unfold __init__, bind.
  destruct (_ h) as [[port | e] h1]; [| discriminate].
  destruct (call d (Open port) h1) as [[[] | e] h2]; [| discriminate].
  destruct (call d GetModifiers h2) as [[[] | e] h3]; [| discriminate].
  destruct (call d StartMeasuring h3) as [[[] | e] h4]; [| discriminate].
  unfold emit.
  destruct (call d SuperInit _) as [[[] | e] h5]; [| discriminate].
  unfold ret. intros E. injection E as <- _. split; reflexivity.
Qed.

(** A turn of the loop only ever appends to the buffer. *)
Lemma loop_turn_appends (st : machine A) :
  exists new : list A,
    current_measurements (self (snd (measurement_loop_body d st)))
    = current_measurements (self st) ++ new.
Proof.
  destruct st as [o h].
  unfold measurement_loop_body, bind, on_trace, on_self, ask, emit, ret.
  cbn [trace self].
  destruct (raises d h GetData); [exists []; simpl; now rewrite app_nil_r |].
  destruct (data d h) as [| b chunk];
    [exists []; simpl; now rewrite app_nil_r |].
  cbn [trace self].
  destruct (raises d (h ++ [GetData]) (GetSamples (b :: chunk)));
    [exists []; simpl; now rewrite app_nil_r |].
  eexists. reflexivity.
Qed.

Lemma py_last_nonempty (xs : list A) :
  xs <> [] -> exists x, py_last xs = Ok x.
Proof.
  intros Hne. destruct (exists_last Hne) as (init & x & ->).
  exists x. apply py_last_app.
Qed.

Lemma queries_succeed (o : PPK2PowerSupply A) :
  current_measurements o <> [] ->
  (exists a, get_min_current_mA o = Ok a) /\
  (exists b, get_max_current_mA o = Ok b) /\
  (exists c, get_average_current_mA o = Ok c) /\
  (exists o', reset_measurements o = Ok o' /\
              List.length (current_measurements o') = 1%nat).
Proof.
  intros Hne. unfold get_min_current_mA, get_max_current_mA, reset_measurements.
  destruct (py_last_nonempty Hne) as (x & ->).
  rewrite (average_unfold o Hne).
  destruct (current_measurements o) as [| y rest]; [congruence |].
  repeat split; eexists; try reflexivity. split; reflexivity.
Qed.

Lemma nonempty_length (xs : list A) : xs <> [] <-> (1 <= List.length xs)%nat.
Proof. destruct xs; simpl; split; intros; try congruence; lia. Qed.

Lemma operation_keeps_buffer (o : operation) (st : machine A) :
  current_measurements (self st) <> [] ->
  current_measurements (self (snd (run_operation d o st))) <> [].
Proof.
  intros Hne. destruct o; cbn [run_operation]; try exact Hne.
  - destruct (loop_turn_appends st) as (new & ->).
    intros E. apply app_eq_nil in E. tauto.
  - destruct (queries_succeed (self st) Hne) as (_ & _ & _ & o' & -> & Hlen).
    cbn [snd self]. apply nonempty_length. lia.
Qed.

Lemma operations_keep_buffer (ops : list operation) (st : machine A) :
  current_measurements (self st) <> [] ->
  current_measurements (self (run_operations d ops st)) <> [].
Proof.
  revert st. induction ops as [| o ops IH]; intros st Hne; [exact Hne |].
  apply IH, operation_keeps_buffer, Hne.
Qed.

Lemma caller_operation_succeeds (o : operation) (st : machine A) :
  current_measurements (self st) <> [] ->
  o <> LoopTurn ->
  fst (run_operation d o st) = Ok tt.
Proof.
  intros Hne Ho.
  destruct (queries_succeed (self st) Hne)
    as ((a & Ha) & (b & Hb) & (c & Hc) & o' & Ho' & _).
  destruct o; cbn [run_operation]; unfold query; try congruence.
  - rewrite Ho'. reflexivity.
  - rewrite Ha. reflexivity.
  - rewrite Hb. reflexivity.
  - rewrite Hc. reflexivity.
Qed.
End BufferInvariant.

(** *** Under interleaving *)

Module InterleavingFacts.
Import Interleaving.

Section Facts.
Context {A : Type} `{PyNum A}.

Lemma extend_object_length (tmp : nat) (new : list A) (objs : list (list A)) :
  List.length (extend_object tmp new objs) = List.length objs.
Proof.
  revert tmp. induction objs as [| l rest IH]; intros [| n]; simpl; auto.
Qed.

Lemma extend_object_nonempty (tmp : nat) (new : list A)
    (objs : list (list A)) :
  Forall (fun l => l <> []) objs ->
  Forall (fun l => l <> []) (extend_object tmp new objs).
Proof.
  intros Hall. revert tmp.
  induction Hall as [| l rest Hl Hrest IH]; intros [| n]; simpl;
    constructor; auto.
  intros E. apply app_eq_nil in E. tauto.
Qed.

Lemma object_nonempty (s : cstate A) (tmp : nat) :
  Forall (fun l => l <> []) (objects s) -> names s tmp ->
  object_at s tmp <> [].
Proof.
  intros Hall Hn. unfold object_at.
  rewrite Forall_forall in Hall. apply Hall, nth_In, Hn.
Qed.

Lemma start_sound (buf : list A) : buf <> [] -> sound (start buf).
Proof.
  intros Hne. unfold sound, names, start. simpl.
  repeat split; auto.
Qed.

Lemma min_call_succeeds (xs : list A) :
  xs <> [] -> exists a, rbind (py_min xs) (fun m => py_truediv m 1000) = Ok a.
Proof. destruct xs; [congruence |]. intros _. eexists. reflexivity. Qed.

Lemma max_call_succeeds (xs : list A) :
  xs <> [] -> exists a, rbind (py_max xs) (fun m => py_truediv m 1000) = Ok a.
Proof. destruct xs; [congruence |]. intros _. eexists. reflexivity. Qed.

Lemma mean_call_succeeds (total : A) (xs : list A) :
  xs <> [] ->
  exists a, rbind (py_truediv total (py_len xs))
              (fun q => py_truediv q 1000) = Ok a.
Proof.
  intros Hne. unfold py_truediv at 1. rewrite (py_len_nonzero Hne).
  eexists. reflexivity.
Qed.

Lemma step_sound (a : action A) (s s' : cstate A) :
  sound s -> step a s = Some s' -> sound s'.
Proof.
  unfold sound, names. intros (Hall & Hattr & Hloop & Hcaller) Hstep.
  destruct s as [objs at_ lp cp]. cbn [objects attr loop_at caller_at] in *.
  unfold step in Hstep. cbn [objects attr loop_at caller_at] in Hstep.
  destruct a, lp, cp; try discriminate Hstep; try contradiction;
    unfold at_loop, at_caller, object_at in Hstep;
    cbn [objects attr loop_at caller_at] in Hstep;
    injection Hstep as <-; cbn [objects attr loop_at caller_at];
    rewrite ?extend_object_length, ?length_app; cbn [List.length];
    repeat match goal with
           | |- _ /\ _ => split
           | |- Forall _ (extend_object _ _ _) =>
               apply extend_object_nonempty
           | |- Forall _ (_ ++ _) => apply Forall_app; split
           | |- Forall _ [_] => constructor; [discriminate | constructor]
           end;
    try assumption; try exact I; try lia;
    try match goal with
        | |- match match py_last ?xs with _ => _ end with _ => _ end =>
            let x := fresh "x" in let Hx := fresh "Hx" in
            assert (Hx : exists x, py_last xs = Ok x)
              by (apply py_last_nonempty, (@object_nonempty
                    {| objects := objs; attr := at_; loop_at := LoopIdle;
                       caller_at := CallerIdle |}); assumption);
            destruct Hx as (x & ->); exact I
        | |- match after (rbind (py_min ?xs) _) _ with _ => _ end =>
            let Hx := fresh "Hx" in
            assert (Hx : exists a, rbind (py_min xs)
                                     (fun m => py_truediv m 1000) = Ok a)
              by (apply min_call_succeeds, (@object_nonempty
                    {| objects := objs; attr := at_; loop_at := LoopIdle;
                       caller_at := CallerIdle |}); assumption);
            destruct Hx as (? & ->); exact I
        | |- match after (rbind (py_max ?xs) _) _ with _ => _ end =>
            let Hx := fresh "Hx" in
            assert (Hx : exists a, rbind (py_max xs)
                                     (fun m => py_truediv m 1000) = Ok a)
              by (apply max_call_succeeds, (@object_nonempty
                    {| objects := objs; attr := at_; loop_at := LoopIdle;
                       caller_at := CallerIdle |}); assumption);
            destruct Hx as (? & ->); exact I
        | |- match after (rbind (py_truediv ?t (py_len ?xs)) _) _
             with _ => _ end =>
            let Hx := fresh "Hx" in
            assert (Hx : exists a, rbind (py_truediv t (py_len xs))
                                     (fun q => py_truediv q 1000) = Ok a)
              by (apply mean_call_succeeds, (@object_nonempty
                    {| objects := objs; attr := at_; loop_at := LoopIdle;
                       caller_at := CallerIdle |}); assumption);
            destruct Hx as (? & ->); exact I
        end.
Qed.

Lemma run_sound (sched : list (action A)) (s s' : cstate A) :
  sound s -> run sched s = Some s' -> sound s'.
Proof.
  revert s. induction sched as [| a rest IH]; intros s Hs Hrun.
  - injection Hrun as <-. exact Hs.
  - simpl in Hrun. destruct (step a s) as [s1 |] eqn:E; [| discriminate].
    exact (IH s1 (step_sound a Hs E) Hrun).
Qed.

Lemma sound_buffer (s : cstate A) :
  sound s ->
  (1 <= List.length (buffer s))%nat /\ forall e, caller_at s <> CallerRaised e.
Proof.
  intros (Hall & Hattr & _ & Hcaller). split.
  - apply nonempty_length. unfold buffer. now apply object_nonempty.
  - intros e E. rewrite E in Hcaller. exact Hcaller.
Qed.
End Facts.
End InterleavingFacts.

(** C7.  When the constructor returns, the buffer holds exactly one sample,
    zero (0.0 on floats).  From there on the buffer has at least one
    element after any sequence of loop turns, resets and statistics
    queries, and on every state so reached a reset or a query returns
    normally.  The same holds when the steps of the loop's [+=] are
    interleaved with the steps of the caller's reset or query in any order:
    in every state a schedule reaches, the buffer has at least one element
    and the caller has not raised. *)
Theorem buffer_is_never_empty {A} `{PyNum A} (d : Driver A)
    (portName : option string) (h h' : list event) (obj : PPK2PowerSupply A) :
  __init__ d portName h = (Ok obj, h') ->
  current_measurements obj = [num_of_Z 0] /\
  float_of_Z 0 = 0%float /\
  (forall ops : list operation,
      (1 <= List.length
              (current_measurements
                 (self (run_operations d ops {| self := obj; trace := h' |}))))%nat /\
      forall o : operation,
        o <> LoopTurn ->
        fst (run_operation d o
               (run_operations d ops {| self := obj; trace := h' |}))
        = Ok tt) /\
  (forall (sched : list (Interleaving.action A)) (s : Interleaving.cstate A),
      Interleaving.run sched (Interleaving.start (current_measurements obj))
      = Some s ->
      (1 <= List.length (Interleaving.buffer s))%nat /\
      forall e : exn, Interleaving.caller_at s <> Interleaving.CallerRaised e).
Proof.
  intros Hinit.
  destruct (init_buffer d portName h Hinit) as [Hbuf _].
  assert (Hne : current_measurements obj <> []) by (rewrite Hbuf; discriminate).
  split; [exact Hbuf |]. split; [reflexivity |]. split.
  - intros ops.
    pose proof (@operations_keep_buffer _ _ d ops
                  {| self := obj; trace := h' |} Hne) as Hops.
    split.
    + apply nonempty_length, Hops.
    + intros o Ho. now apply caller_operation_succeeds.
  - intros sched s Hrun.
    apply InterleavingFacts.sound_buffer.
    apply (InterleavingFacts.run_sound sched
             (InterleavingFacts.start_sound Hne) Hrun).
Qed.

Lemma buffer_is_never_empty_witness :
  __init__ steady_driver None []
  = (Ok {| r := "/dev/ttyACM0"; current_measurements := [0%float];
           measuring := true; v := 0%float |},
     [ListDevices; Open "/dev/ttyACM0"; GetModifiers; StartMeasuring;
      ThreadStart; LogInfo "Connected to Power Profiler Kit II (PPK2)";
      SuperInit]) /\
  (1 <= List.length
          (current_measurements
             (self (run_operations steady_driver
                      [LoopTurn; QueryAverage; Reset; Reset; LoopTurn]
                      {| self := {| r := "/dev/ttyACM0";
                                    current_measurements := [0%float];
                                    measuring := true; v := 0%float |};
                         trace := [ListDevices; Open "/dev/ttyACM0";
                                   GetModifiers; StartMeasuring; ThreadStart;
                                   LogInfo "Connected to Power Profiler Kit II (PPK2)";
                                   SuperInit] |}))))%nat.
Proof.
  assert (Hinit : __init__ steady_driver None []
                  = (Ok {| r := "/dev/ttyACM0";
                           current_measurements := [0%float];
                           measuring := true; v := 0%float |},
                     [ListDevices; Open "/dev/ttyACM0"; GetModifiers;
                      StartMeasuring; ThreadStart;
                      LogInfo "Connected to Power Profiler Kit II (PPK2)";
                      SuperInit])) by reflexivity.
  split; [exact Hinit |].
  exact (proj1 (proj1 (proj2 (proj2
           (@buffer_is_never_empty _ _ steady_driver None [] _ _ Hinit)))
           [LoopTurn; QueryAverage; Reset; Reset; LoopTurn])).
Defined.

Lemma voltage_is_set_before_mode_witness :
  num_int (num_mul (v (self (sample_machine [0%float]))) (num_of_Z 1000))
  = Ok 3300%Z /\
  raises steady_driver (trace (sample_machine [0%float]))
    (SetSourceVoltage 3300) = None /\
  (trace (snd (setIsSupply steady_driver true (sample_machine [0%float])))
   = trace (sample_machine [0%float])
     ++ [SetSourceVoltage 3300; UseSourceMeter] /\
   fst (setIsSupply steady_driver true (sample_machine [0%float])) = Ok tt) /\
  (trace (snd (setIsSupply steady_driver false (sample_machine [0%float])))
   = trace (sample_machine [0%float])
     ++ [SetSourceVoltage 3300; UseAmpereMeter] /\
   fst (setIsSupply steady_driver false (sample_machine [0%float])) = Ok tt).
Proof.
  assert (Hint : num_int (num_mul (v (self (sample_machine [0%float])))
                            (num_of_Z 1000)) = Ok 3300%Z) by reflexivity.
  assert (Hvolt : raises steady_driver (trace (sample_machine [0%float]))
                    (SetSourceVoltage 3300) = None) by reflexivity.
  split; [exact Hint |]. split; [exact Hvolt |]. split.
  - exact (proj2 (proj2 (proj2 (proj2
             (voltage_is_set_before_mode steady_driver true
                (sample_machine [0%float]))))
             3300%Z Hint) Hvolt).
  - exact (proj2 (proj2 (proj2 (proj2
             (voltage_is_set_before_mode steady_driver false
                (sample_machine [0%float]))))
             3300%Z Hint) Hvolt).
Defined.

(** C9, as amended.  The class keeps no session state and raises no
    lifecycle error of its own.  [close], in whatever state it is called
    (so also a second time), clears [measuring], sends the stop command,
    joins the thread and calls the base class, and raises only what the
    stop command or the base class raises.  A statistics query after a
    [close] is no error either: when the buffer was not empty, the three
    queries return a value after [close], and after whatever loop turns,
    resets and queries follow it. *)
Theorem close_checks_no_state {A} `{PyNum A} (d : Driver A) (st : machine A) :
  measuring (self (snd (close d st))) = false /\
  (raises d (trace st) StopMeasuring = None ->
   raises d (trace st ++ [StopMeasuring; ThreadJoin]) SuperClose = None ->
   fst (close d st) = Ok tt /\
   trace (snd (close d st))
   = trace st ++ [StopMeasuring; ThreadJoin; SuperClose]) /\
  (forall e, fst (close d st) = Raise e ->
             raises d (trace st) StopMeasuring = Some e \/
             raises d (trace st ++ [StopMeasuring; ThreadJoin]) SuperClose
             = Some e) /\
  (current_measurements (self st) <> [] ->
   forall ops : list operation,
     (exists a, get_min_current_mA
                  (self (run_operations d ops (snd (close d st)))) = Ok a) /\
     (exists b, get_max_current_mA
                  (self (run_operations d ops (snd (close d st)))) = Ok b) /\
     (exists c, get_average_current_mA
                  (self (run_operations d ops (snd (close d st)))) = Ok c)).
Proof.
  pose proof (close_cases d st) as Hc.
  assert (Hself : self (snd (close d st)) = set_measuring false (self st)).
  { destruct (raises d (trace st) StopMeasuring); rewrite Hc; reflexivity. }
  split; [rewrite Hself; reflexivity |]. split; [| split].
  - intros Hstop Hbase. rewrite Hstop in Hc. rewrite Hc, Hbase.
    split; reflexivity.
  - intros e He.
    destruct (raises d (trace st) StopMeasuring) as [e' |].
    + rewrite Hc in He. simpl in He. left. congruence.
    + rewrite Hc in He. simpl in He. right.
      destruct (raises d (trace st ++ [StopMeasuring; ThreadJoin]) SuperClose);
        congruence.
  - intros Hne ops.
    assert (Hne' : current_measurements (self (snd (close d st))) <> [])
      by (rewrite Hself; exact Hne).
    pose proof (@operations_keep_buffer _ _ d ops (snd (close d st)) Hne')
      as Hops.
    destruct (queries_succeed _ Hops) as (Ha & Hb & Hc' & _).
    split; [exact Ha |]. split; [exact Hb | exact Hc'].
Qed.

Lemma close_checks_no_state_witness :
  raises steady_driver
    (trace (snd (close steady_driver (sample_machine [0%float]))))
    StopMeasuring = None /\
  fst (close steady_driver
         (snd (close steady_driver (sample_machine [0%float])))) = Ok tt /\
  trace (snd (close steady_driver
                (snd (close steady_driver (sample_machine [0%float])))))
  = trace (snd (close steady_driver (sample_machine [0%float])))
    ++ [StopMeasuring; ThreadJoin; SuperClose].
Proof.
  split; [reflexivity |].
  apply (proj1 (proj2
           (close_checks_no_state steady_driver
              (snd (close steady_driver (sample_machine [0%float])))))).
  - reflexivity.
  - reflexivity.
Defined.

(** * Further properties *)

(** ** The constructor, call by call *)

Lemma in_firstn_in {X} (k : nat) (l : list X) (x : X) :
  In x (firstn k l) -> In x l.
Proof.
  revert l. induction k as [| k IH]; intros [| y l]; simpl; try tauto.
  intros [E | Hin]; [now left | right; now apply IH].
Qed.

Section ConstructorRuns.
Context {A : Type} `{PyNum A}.
Variable d : Driver A.

(** The part of the constructor that follows the choice of the port. *)
Let connect (port : string) : ST (list event) (PPK2PowerSupply A) :=
  bind (call d (Open port)) (fun _ =>
  bind (call d GetModifiers) (fun _ =>
  bind (call d StartMeasuring) (fun _ =>
  bind (emit ThreadStart) (fun _ =>
  bind (emit (LogInfo "Connected to Power Profiler Kit II (PPK2)")) (fun _ =>
  bind (call d SuperInit) (fun _ =>
  ret (fresh_object d port))))))).

Lemma connect_cases (port : string) (h : list event) :
  match raises d h (Open port) with
  | Some e => connect port h = (Raise e, h ++ [Open port])
  | None =>
  match raises d (h ++ [Open port]) GetModifiers with
  | Some e => connect port h = (Raise e, h ++ [Open port; GetModifiers])
  | None =>
  match raises d (h ++ [Open port; GetModifiers]) StartMeasuring with
  | Some e =>
      connect port h
      = (Raise e, h ++ [Open port; GetModifiers; StartMeasuring])
  | None =>
  match raises d (h ++ removelast (init_calls port)) SuperInit with
  | Some e => connect port h = (Raise e, h ++ init_calls port)
  | None => connect port h = (Ok (fresh_object d port), h ++ init_calls port)
  end end end end.
Proof.
  unfold connect, bind, call, emit, ret, init_calls. cbn [removelast].
  rewrite <- !app_assoc. cbn [app].
  destruct (raises d h (Open port)); [reflexivity |].
  destruct (raises d (h ++ [Open port]) GetModifiers); [reflexivity |].
  destruct (raises d (h ++ [Open port; GetModifiers]) StartMeasuring);
    [reflexivity |].
  destruct (raises d _ SuperInit); reflexivity.
Qed.

Lemma init_with_port (port : string) (h : list event) :
  not_portName (Some port) = false ->
  __init__ d (Some port) h = connect port h.
Proof.
  intros Hp. unfold __init__, connect. rewrite Hp. reflexivity.
Qed.

Lemma init_discovered (portName : option string) (port : string)
    (h : list event) :
  not_portName portName = true ->
  raises d h ListDevices = None ->
  devices d h = [port] ->
  __init__ d portName h = connect port (h ++ [ListDevices]).
Proof.
  intros Hp Hok Hdev. unfold __init__, connect. rewrite Hp.
  unfold bind, ask. rewrite Hok, Hdev. reflexivity.
Qed.

Lemma init_discovery_raises (portName : option string) (h : list event)
    (e : exn) :
  not_portName portName = true ->
  raises d h ListDevices = Some e ->
  __init__ d portName h = (Raise e, h ++ [ListDevices]).
Proof.
  intros Hp Hbad. unfold __init__. rewrite Hp.
  unfold bind, ask. rewrite Hbad. reflexivity.
Qed.

(** What a run of [connect] can be. *)
Lemma connect_outcome (port : string) (h : list event) :
  (exists e k, connect port h = (Raise e, h ++ firstn k (init_calls port)) /\
               (1 <= k <= 3)%nat) \/
  (exists e, connect port h = (Raise e, h ++ init_calls port) /\
             raises d (h ++ removelast (init_calls port)) SuperInit = Some e) \/
  connect port h = (Ok (fresh_object d port), h ++ init_calls port).
Proof.
  pose proof (connect_cases port h) as Hc.
  destruct (raises d h (Open port)) as [e |].
  { left. exists e, 1%nat. split; [exact Hc | lia]. }
  destruct (raises d (h ++ [Open port]) GetModifiers) as [e |].
  { left. exists e, 2%nat. split; [exact Hc | lia]. }
  destruct (raises d (h ++ [Open port; GetModifiers]) StartMeasuring) as [e |].
  { left. exists e, 3%nat. split; [exact Hc | lia]. }
  destruct (raises d _ SuperInit) as [e |].
  - right. left. exists e. split; [exact Hc | reflexivity].
  - right. right. exact Hc.
Qed.

(** Every run of the constructor: a failed or ambiguous discovery, or a run
    of [connect] after the discovery calls. *)
Lemma init_outcome (portName : option string) (h : list event) :
  (exists e, __init__ d portName h = (Raise e, h ++ [ListDevices]) /\
             not_portName portName = true) \/
  (exists port,
      __init__ d portName h = connect port (h ++ discovery_calls portName) /\
      (if not_portName portName
       then raises d h ListDevices = None /\ devices d h = [port]
       else portName = Some port)).
Proof.
  unfold discovery_calls.
  destruct (not_portName portName) eqn:Hp.
  - destruct (raises d h ListDevices) as [e |] eqn:Hdisc.
    { left. exists e. split; [now apply init_discovery_raises | reflexivity]. }
    destruct (devices d h) as [| port [| port' rest]] eqn:Hdev.
    + left. eexists. split; [| reflexivity].
      rewrite (init_discovery d portName h Hp Hdisc); rewrite Hdev;
        [reflexivity | discriminate].
    + right. exists port. split; [| split; [reflexivity | reflexivity]].
      now apply init_discovered.
    + left. eexists. split; [| reflexivity].
      rewrite (init_discovery d portName h Hp Hdisc); rewrite Hdev;
        [reflexivity | discriminate].
  - destruct portName as [port |]; [| discriminate].
    right. exists port. rewrite app_nil_r.
    split; [now apply init_with_port | reflexivity].
Qed.

Lemma thread_start_in_prefix (port : string) (k : nat) :
  (k <= 3)%nat -> ~ In ThreadStart (firstn k (init_calls port)).
Proof.
  intros Hk. destruct k as [| [| [| [| k]]]]; try lia; simpl;
    intros Hin; repeat destruct Hin as [Hin | Hin]; try discriminate Hin;
    exact Hin.
Qed.
(** X1.  When the constructor returns, the port of the object is the one
    that was asked for or, when none was, the single port discovery
    returned; and the calls the constructor has made are the discovery
    (only when no port was given) followed by the opening of that port,
    get_modifiers, start_measuring, the thread start, the log entry and the
    base initialiser, in that order and nothing else. *)
Theorem constructor_success_shape (portName : option string)
    (h h' : list event) (obj : PPK2PowerSupply A) :
  __init__ d portName h = (Ok obj, h') ->
  exists port : string,
    r obj = port /\
    h' = h ++ discovery_calls portName ++ init_calls port /\
    (if not_portName portName then devices d h = [port]
     else portName = Some port).
Proof.
  intros Hrun.
  destruct (init_outcome portName h) as [(e & He & _) | (port & Hc & Hport)].
  { rewrite He in Hrun. discriminate. }
  rewrite Hc in Hrun.
  destruct (connect_outcome port (h ++ discovery_calls portName))
    as [(e & k & Hk & _) | [(e & Hk & _) | Hk]];
    rewrite Hk in Hrun; try discriminate.
  injection Hrun as <- <-. exists port.
  split; [reflexivity |]. split; [now rewrite app_assoc |].
  destruct (not_portName portName); tauto.
Qed.

(** X2.  When the constructor raises, the acquisition thread has been
    started only if the exception is the one raised by the base
    initialiser, the last call of the constructor; by then the port is open
    and the device measuring, and the constructor has sent no stop command
    and joined no thread.  An exception raised earlier (by discovery, by
    opening the port, by get_modifiers or by start_measuring) leaves no
    thread behind. *)
Theorem failed_constructor_and_thread (portName : option string)
    (h h' : list event) (e : exn) :
  __init__ d portName h = (Raise e, h') ->
  exists new : list event,
    h' = h ++ new /\
    ~ In StopMeasuring new /\ ~ In ThreadJoin new /\
    (In ThreadStart new ->
     exists port : string,
       new = discovery_calls portName ++ init_calls port /\
       raises d ((h ++ discovery_calls portName) ++ removelast (init_calls port))
         SuperInit = Some e).
Proof.
  intros Hrun.
  destruct (init_outcome portName h) as [(e' & He & Hp) | (port & Hc & Hport)].
  { rewrite He in Hrun. injection Hrun as <- <-. exists [ListDevices].
    split; [reflexivity |].
    repeat split; intros [E | []]; discriminate E. }
  rewrite Hc in Hrun.
  assert (Hdisc : forall ev, In ev (discovery_calls portName) -> ev = ListDevices).
  { unfold discovery_calls. intros ev.
    destruct (not_portName portName); simpl; intuition auto. }
  assert (Hcalls : forall k ev, In ev (firstn k (init_calls port)) ->
                                ev <> StopMeasuring /\ ev <> ThreadJoin).
  { intros k ev Hin. apply in_firstn_in in Hin. simpl in Hin.
    repeat destruct Hin as [<- | Hin]; try contradiction;
      split; discriminate. }
  destruct (connect_outcome port (h ++ discovery_calls portName))
    as [(e' & k & Hk & Hle) | [(e' & Hk & Hsup) | Hk]];
    rewrite Hk in Hrun; try discriminate; injection Hrun as <- <-.
  - exists (discovery_calls portName ++ firstn k (init_calls port)).
    split; [now rewrite app_assoc |].
    split; [| split].
    + intros Hin. apply in_app_or in Hin. destruct Hin as [Hin | Hin].
      * apply Hdisc in Hin. discriminate.
      * apply Hcalls in Hin. tauto.
    + intros Hin. apply in_app_or in Hin. destruct Hin as [Hin | Hin].
      * apply Hdisc in Hin. discriminate.
      * apply Hcalls in Hin. tauto.
    + intros Hin. apply in_app_or in Hin. destruct Hin as [Hin | Hin].
      * apply Hdisc in Hin. discriminate.
      * exfalso. apply (thread_start_in_prefix port (k:=k)); [lia | exact Hin].
  - exists (discovery_calls portName ++ init_calls port).
    split; [now rewrite app_assoc |].
    split; [| split].
    + intros Hin. apply in_app_or in Hin. destruct Hin as [Hin | Hin].
      * apply Hdisc in Hin. discriminate.
      * apply (Hcalls 6%nat) in Hin. tauto.
    + intros Hin. apply in_app_or in Hin. destruct Hin as [Hin | Hin].
      * apply Hdisc in Hin. discriminate.
      * apply (Hcalls 6%nat) in Hin. tauto.
    + intros _. exists port. split; [reflexivity | exact Hsup].
Qed.

(** X3.  Given a non-empty port name, the constructor never calls
    discovery: whatever the device answers, its first call is the opening
    of that very port, and no later call is a discovery. *)
Theorem explicit_port_skips_discovery (port : string) (h : list event) :
  not_portName (Some port) = false ->
  exists rest : list event,
    snd (__init__ d (Some port) h) = h ++ Open port :: rest /\
    ~ In ListDevices rest.
Proof.
  intros Hp. rewrite (init_with_port port h Hp).
  assert (Hrest : forall k, ~ In ListDevices (tl (firstn k (init_calls port)))).
  { intros k Hin.
    assert (Hin' : In ListDevices (firstn k (init_calls port))).
    { destruct (firstn k (init_calls port)); [exact Hin | now right]. }
    apply in_firstn_in in Hin'. simpl in Hin'.
    repeat destruct Hin' as [E | Hin']; try discriminate E; exact Hin'. }
  destruct (connect_outcome port h)
    as [(e & k & Hk & Hle) | [(e & Hk & _) | Hk]]; rewrite Hk; cbn [snd].
  - exists (tl (firstn k (init_calls port))). split; [| apply Hrest].
    destruct k as [| k]; [lia | reflexivity].
  - exists (tl (firstn 6 (init_calls port))). split; [reflexivity | apply Hrest].
  - exists (tl (firstn 6 (init_calls port))). split; [reflexivity | apply Hrest].
Qed.
End ConstructorRuns.

Lemma constructor_success_shape_witness :
  __init__ steady_driver None []
  = (Ok (fresh_object steady_driver "/dev/ttyACM0"),
     ListDevices :: init_calls "/dev/ttyACM0") /\
  exists port : string,
    r (fresh_object steady_driver "/dev/ttyACM0") = port /\
    ListDevices :: init_calls "/dev/ttyACM0"
    = [] ++ discovery_calls None ++ init_calls port /\
    (if not_portName None then devices steady_driver [] = [port]
     else None = Some port).
Proof.
  assert (Hrun : __init__ steady_driver None []
                 = (Ok (fresh_object steady_driver "/dev/ttyACM0"),
                    ListDevices :: init_calls "/dev/ttyACM0")) by reflexivity.
  split; [exact Hrun |].
  exact (constructor_success_shape steady_driver None [] Hrun).
Defined.

Lemma failed_constructor_and_thread_witness :
  __init__ broken_base_driver None []
  = (Raise (DriverError 7), ListDevices :: init_calls "/dev/ttyACM0") /\
  exists new : list event,
    ListDevices :: init_calls "/dev/ttyACM0" = [] ++ new /\
    ~ In StopMeasuring new /\ ~ In ThreadJoin new /\
    (In ThreadStart new ->
     exists port : string,
       new = discovery_calls None ++ init_calls port /\
       raises broken_base_driver
         (([] ++ discovery_calls None) ++ removelast (init_calls port))
         SuperInit = Some (DriverError 7)).
Proof.
  assert (Hrun : __init__ broken_base_driver None []
                 = (Raise (DriverError 7),
                    ListDevices :: init_calls "/dev/ttyACM0")) by reflexivity.
  split; [exact Hrun |].
  exact (failed_constructor_and_thread broken_base_driver None [] Hrun).
Defined.

Lemma explicit_port_skips_discovery_witness :
  not_portName (Some "COM3"%string) = false /\
  exists rest : list event,
    snd (__init__ steady_driver (Some "COM3"%string) [])
    = [] ++ Open "COM3" :: rest /\
    ~ In ListDevices rest.
Proof.
  split; [reflexivity |].
  exact (explicit_port_skips_discovery steady_driver "COM3" [] eq_refl).
Defined.

(** ** The acquisition loop, turn by turn *)

Section LoopRuns.
Context {A : Type} `{PyNum A}.
Variable d : Driver A.

(** Every way a turn of the loop can go. *)
Lemma loop_body_cases (st : machine A) :
  match raises d (trace st) GetData with
  | Some e =>
      measurement_loop_body d st
      = (Raise e, {| self := self st; trace := trace st ++ [GetData] |})
  | None =>
      match data d (trace st) with
      | [] =>
          measurement_loop_body d st
          = (Ok tt, {| self := self st;
                       trace := trace st ++ [GetData; Sleep] |})
      | b :: chunk =>
          match raises d (trace st ++ [GetData]) (GetSamples (b :: chunk)) with
          | Some e =>
              measurement_loop_body d st
              = (Raise e,
                 {| self := self st;
                    trace := trace st ++ [GetData; GetSamples (b :: chunk)] |})
          | None =>
              measurement_loop_body d st
              = (Ok tt,
                 {| self := extend_measurements
                              (fst (samples d (trace st ++ [GetData])
                                      (b :: chunk)))
                              (self st);
                    trace := trace st
                             ++ [GetData; GetSamples (b :: chunk); Sleep] |})
          end
      end
  end.
Proof.
  destruct st as [o h].
  unfold measurement_loop_body, bind, on_trace, on_self, ask, emit, ret.
  cbn [trace self].
  destruct (raises d h GetData); [reflexivity |].
  destruct (data d h) as [| b chunk];
    [cbn [trace self]; rewrite <- app_assoc; reflexivity |].
  cbn [trace self].
  destruct (raises d (h ++ [GetData]) (GetSamples (b :: chunk)));
    cbn [trace self]; rewrite <- !app_assoc; reflexivity.
Qed.

(** What a turn leaves: the old trace followed by loop calls, the old
    buffer followed by what was decoded, the other attributes as they were;
    and when it raises, the exception is the one the last call raised. *)
Lemma loop_body_shape (st : machine A) :
  exists (new : list event) (added : list A),
    trace (snd (measurement_loop_body d st)) = trace st ++ new /\
    forallb loop_event new = true /\
    current_measurements (self (snd (measurement_loop_body d st)))
    = current_measurements (self st) ++ added /\
    r (self (snd (measurement_loop_body d st))) = r (self st) /\
    measuring (self (snd (measurement_loop_body d st))) = measuring (self st) /\
    v (self (snd (measurement_loop_body d st))) = v (self st) /\
    (forall e, fst (measurement_loop_body d st) = Raise e ->
               added = [] /\
               exists hist ev,
                 trace (snd (measurement_loop_body d st)) = hist ++ [ev] /\
                 loop_call ev = true /\ raises d hist ev = Some e).
Proof.
  pose proof (loop_body_cases st) as Hc.
  destruct (raises d (trace st) GetData) as [e |] eqn:Hpoll.
  { rewrite Hc. exists [GetData], []. cbn [snd fst trace self].
    rewrite app_nil_r. repeat split; try reflexivity.
    injection H0 as <-. exists (trace st), GetData. auto. }
  destruct (data d (trace st)) as [| b chunk].
  { rewrite Hc. exists [GetData; Sleep], []. cbn [snd fst trace self].
    rewrite app_nil_r. repeat split; try reflexivity; discriminate. }
  destruct (raises d (trace st ++ [GetData]) (GetSamples (b :: chunk)))
    as [e |] eqn:Hdec.
  { rewrite Hc. exists [GetData; GetSamples (b :: chunk)], [].
    cbn [snd fst trace self]. rewrite app_nil_r.
    repeat split; try reflexivity.
    injection H0 as <-.
    exists (trace st ++ [GetData]), (GetSamples (b :: chunk)).
    rewrite <- app_assoc. auto. }
  rewrite Hc. eexists [GetData; GetSamples (b :: chunk); Sleep], _.
  cbn [snd fst trace self]. repeat split; try reflexivity; discriminate.
Qed.

(** X4.  However long it runs and whatever the device answers, the loop
    makes no call but polls, decodings and sleeps, only ever appends to the
    buffer (in particular it never drops or reorders a sample already
    there) and leaves the other attributes alone. *)
Theorem loop_only_polls_and_appends (fuel : nat) (st : machine A) :
  exists (new : list event) (added : list A),
    trace (snd (measurement_loop d fuel st)) = trace st ++ new /\
    forallb loop_event new = true /\
    current_measurements (self (snd (measurement_loop d fuel st)))
    = current_measurements (self st) ++ added /\
    r (self (snd (measurement_loop d fuel st))) = r (self st) /\
    measuring (self (snd (measurement_loop d fuel st))) = measuring (self st) /\
    v (self (snd (measurement_loop d fuel st))) = v (self st).
Proof.
  revert st. induction fuel as [| fuel IH]; intros st.
  - exists [], []. cbn. rewrite !app_nil_r. repeat split; reflexivity.
  - rewrite measurement_loop_turn.
    destruct (measuring (self st)) eqn:Hgo.
    + destruct (loop_body_shape st)
        as (new & added & Htr & Hev & Hbuf & Hr & Hm & Hv & _).
      destruct (measurement_loop_body d st) as [[[] | e] st1];
        cbn [snd fst] in *.
      * destruct (IH st1) as (new' & added' & Htr' & Hev' & Hbuf' & Hr' & Hm' & Hv').
        exists (new ++ new'), (added ++ added').
        split; [rewrite Htr', Htr, app_assoc; reflexivity |].
        split; [rewrite forallb_app, Hev, Hev'; reflexivity |].
        split; [rewrite Hbuf', Hbuf, app_assoc; reflexivity |].
        split; [congruence |]. split; congruence.
      * exists new, added.
        split; [exact Htr |]. split; [exact Hev |]. split; [exact Hbuf |].
        split; [exact Hr |]. split; congruence.
    + exists [], []. cbn. rewrite !app_nil_r.
      repeat split; try reflexivity; congruence.
Qed.

(** X5.  The loop raises nothing of its own: when it ends with an
    exception, that exception is the one the device raised at the last call
    made, and that call is a poll or a decoding. *)
Theorem loop_raises_only_what_the_device_raises (fuel : nat) (st : machine A)
    (e : exn) :
  fst (measurement_loop d fuel st) = Raise e ->
  exists (hist : list event) (ev : event),
    trace (snd (measurement_loop d fuel st)) = hist ++ [ev] /\
    loop_call ev = true /\ raises d hist ev = Some e.
Proof.
  revert st. induction fuel as [| fuel IH]; intros st; [discriminate |].
  rewrite measurement_loop_turn.
  destruct (measuring (self st)); [| discriminate].
  destruct (loop_body_shape st)
    as (new & added & _ & _ & _ & _ & _ & _ & Hraise).
  destruct (measurement_loop_body d st) as [[[] | e'] st1]; cbn [snd fst] in *.
  - apply IH.
  - intros E. injection E as E. subst e. exact (proj2 (Hraise e' eq_refl)).
Qed.

(** X6.  Once [measuring] is false the loop returns at its next test of
    it, having made no call and changed nothing.  [close] clears the flag
    before it talks to the device, so this is the case after every [close],
    also one that raised. *)
Theorem loop_returns_after_close (fuel : nat) (st : machine A) :
  (measuring (self st) = false ->
   measurement_loop d (S fuel) st = (Ok Returned, st)) /\
  measurement_loop d (S fuel) (snd (close d st))
  = (Ok Returned, snd (close d st)).
Proof.
  assert (Hstop : forall st', measuring (self st') = false ->
                              measurement_loop d (S fuel) st' = (Ok Returned, st')).
  { intros st' Hoff. rewrite measurement_loop_turn, Hoff. reflexivity. }
  split; [apply Hstop |].
  apply Hstop.
  pose proof (close_cases d st) as Hc.
  destruct (raises d (trace st) StopMeasuring); rewrite Hc; reflexivity.
Qed.

(** X7.  While the device has no data (every poll returns the empty
    chunk) a running loop never calls the decoder and never touches the
    object: each turn is a poll and a sleep. *)
Theorem loop_without_data (fuel : nat) (st : machine A) :
  (forall h, raises d h GetData = None) ->
  (forall h, data d h = []) ->
  measuring (self st) = true ->
  measurement_loop d fuel st
  = (Ok Running,
     {| self := self st;
        trace := trace st ++ List.concat (repeat [GetData; Sleep] fuel) |}).
Proof.
  intros Hpoll Hnone. revert st.
  induction fuel as [| fuel IH]; intros st Hgo.
  - cbn. rewrite app_nil_r. destruct st; reflexivity.
  - rewrite measurement_loop_turn, Hgo.
    pose proof (loop_body_cases st) as Hc.
    rewrite Hpoll, Hnone in Hc. rewrite Hc, IH by exact Hgo.
    cbn [self trace repeat List.concat]. rewrite <- app_assoc. reflexivity.
Qed.
End LoopRuns.

(** X8.  What [get_samples] returns beside the samples, the undecoded
    remainder of the chunk, is dropped: on two devices that differ in
    nothing but that remainder the loop does the same, turn for turn. *)
Theorem loop_drops_the_remainder {A} `{PyNum A} (d d' : Driver A) (fuel : nat)
    (st : machine A) :
  same_but_remainder d d' ->
  measurement_loop d fuel st = measurement_loop d' fuel st.
Proof.
  intros (Hraise & Hdata & Hdec). revert st.
  assert (Hbody : forall st, measurement_loop_body d st
                             = measurement_loop_body d' st).
  { intros st. pose proof (loop_body_cases d st) as Hc.
    pose proof (loop_body_cases d' st) as Hc'.
    rewrite <- !Hraise, <- Hdata in Hc'.
    destruct (raises d (trace st) GetData); [congruence |].
    destruct (data d (trace st)) as [| b chunk]; [congruence |].
    rewrite <- Hraise in Hc'.
    destruct (raises d (trace st ++ [GetData]) (GetSamples (b :: chunk)));
      [congruence |].
    rewrite <- Hdec in Hc'. congruence. }
  induction fuel as [| fuel IH]; intros st; [reflexivity |].
  rewrite !measurement_loop_turn, Hbody.
  destruct (measuring (self st)); [| reflexivity].
  destruct (measurement_loop_body d' st) as [[[] | e] st1];
    [apply IH | reflexivity].
Qed.

Lemma loop_raises_only_what_the_device_raises_witness :
  fst (measurement_loop unpollable_driver 3 (sample_machine [0%float]))
  = Raise (DriverError 3) /\
  exists (hist : list event) (ev : event),
    trace (snd (measurement_loop unpollable_driver 3
                  (sample_machine [0%float]))) = hist ++ [ev] /\
    loop_call ev = true /\
    raises unpollable_driver hist ev = Some (DriverError 3).
Proof.
  assert (Hrun : fst (measurement_loop unpollable_driver 3
                        (sample_machine [0%float]))
                 = Raise (DriverError 3)) by reflexivity.
  split; [exact Hrun |].
  exact (@loop_raises_only_what_the_device_raises _ _ unpollable_driver 3
           (sample_machine [0%float]) (DriverError 3) Hrun).
Defined.

Lemma loop_returns_after_close_witness :
  measuring (self (snd (close steady_driver (sample_machine [0%float]))))
  = false /\
  measurement_loop steady_driver 4
    (snd (close steady_driver (sample_machine [0%float])))
  = (Ok Returned, snd (close steady_driver (sample_machine [0%float]))).
Proof.
  assert (Hoff : measuring
                   (self (snd (close steady_driver (sample_machine [0%float]))))
                 = false) by reflexivity.
  split; [exact Hoff |].
  exact (proj1 (@loop_returns_after_close _ _ steady_driver 3
                  (snd (close steady_driver (sample_machine [0%float]))))
           Hoff).
Defined.

Lemma loop_without_data_witness :
  (forall h, raises quiet_driver h GetData = None) /\
  (forall h, data quiet_driver h = []) /\
  measurement_loop quiet_driver 2 (sample_machine [0%float])
  = (Ok Running,
     {| self := self (sample_machine [0%float]);
        trace := trace (sample_machine [0%float])
                 ++ List.concat (repeat [GetData; Sleep] 2) |}).
Proof.
  split; [reflexivity |]. split; [reflexivity |].
  apply (@loop_without_data _ _ quiet_driver 2 (sample_machine [0%float]));
    reflexivity.
Defined.

Lemma loop_drops_the_remainder_witness :
  same_but_remainder steady_driver steady_driver_with_remainder /\
  measurement_loop steady_driver 3 (sample_machine [0%float])
  = measurement_loop steady_driver_with_remainder 3 (sample_machine [0%float]).
Proof.
  assert (Hsame : same_but_remainder steady_driver steady_driver_with_remainder)
    by (repeat split).
  split; [exact Hsame |].
  exact (loop_drops_the_remainder 3 (sample_machine [0%float]) Hsame).
Defined.

(** ** More on the statistics *)

(** X9.  On an empty buffer nothing is returned: the minimum and the
    maximum raise [ValueError], the average [ZeroDivisionError] and the
    reset [IndexError].  On a non-empty buffer all four return. *)
Theorem statistics_raise_on_empty_buffer_only {A} `{PyNum A}
    (self : PPK2PowerSupply A) :
  (current_measurements self = [] ->
   get_min_current_mA self = Raise ValueError /\
   get_max_current_mA self = Raise ValueError /\
   get_average_current_mA self = Raise ZeroDivisionError /\
   reset_measurements self = Raise IndexError) /\
  (current_measurements self <> [] ->
   (exists a, get_min_current_mA self = Ok a) /\
   (exists b, get_max_current_mA self = Ok b) /\
   (exists c, get_average_current_mA self = Ok c) /\
   (exists o, reset_measurements self = Ok o)).
Proof.
  split.
  - intros Hnil.
    unfold get_min_current_mA, get_max_current_mA, get_average_current_mA,
      average_current_mA_with, reset_measurements.
    rewrite Hnil. repeat split; reflexivity.
  - intros Hne.
    destruct (queries_succeed self Hne) as (Ha & Hb & Hc & o & Ho & _).
    repeat split; try assumption. exists o. exact Ho.
Qed.

Lemma statistics_raise_on_empty_buffer_only_witness :
  current_measurements (sample_object []) = [] /\
  get_min_current_mA (sample_object []) = Raise ValueError /\
  get_max_current_mA (sample_object []) = Raise ValueError /\
  get_average_current_mA (sample_object []) = Raise ZeroDivisionError /\
  reset_measurements (sample_object []) = Raise IndexError.
Proof.
  split; [reflexivity |].
  exact (proj1 (statistics_raise_on_empty_buffer_only (sample_object []))
           eq_refl).
Defined.

Lemma reset_of_nonempty {A} (self : PPK2PowerSupply A) (dflt : A) :
  current_measurements self <> [] ->
  reset_measurements self
  = Ok (with_buffer self [last (current_measurements self) dflt]).
Proof.
  intros Hne. destruct (exists_last Hne) as (init & x & Hbuf).
  unfold reset_measurements, with_buffer.
  rewrite Hbuf, py_last_app, last_last. reflexivity.
Qed.

(** X10.  After a reset the statistics speak of the last sample alone:
    the minimum and the maximum are both that sample over 1000; and a
    second reset changes nothing. *)
Theorem statistics_after_reset {A} `{PyNum A} (self self' : PPK2PowerSupply A)
    (dflt : A) :
  reset_measurements self = Ok self' ->
  get_min_current_mA self'
  = Ok (num_div (last (current_measurements self) dflt) (num_of_Z 1000)) /\
  get_max_current_mA self'
  = Ok (num_div (last (current_measurements self) dflt) (num_of_Z 1000)) /\
  reset_measurements self' = Ok self'.
Proof.
  intros Hreset.
  destruct (current_measurements self) as [| y rest] eqn:Hbuf.
  { unfold reset_measurements in Hreset. rewrite Hbuf in Hreset.
    discriminate. }
  assert (Hne : current_measurements self <> []) by (rewrite Hbuf; discriminate).
  rewrite (reset_of_nonempty self dflt Hne) in Hreset.
  injection Hreset as <-. rewrite <- Hbuf.
  split; [reflexivity |]. split; reflexivity.
Qed.

Lemma statistics_after_reset_witness :
  reset_measurements (sample_object [1; 2; 3]%float)
  = Ok (sample_object [3]%float) /\
  get_min_current_mA (sample_object [3]%float)
  = Ok (num_div (last (current_measurements (sample_object [1; 2; 3]%float))
                   0%float) (num_of_Z 1000)) /\
  get_max_current_mA (sample_object [3]%float)
  = Ok (num_div (last (current_measurements (sample_object [1; 2; 3]%float))
                   0%float) (num_of_Z 1000)) /\
  reset_measurements (sample_object [3]%float) = Ok (sample_object [3]%float).
Proof.
  assert (Hreset : reset_measurements (sample_object [1; 2; 3]%float)
                   = Ok (sample_object [3]%float)) by reflexivity.
  split; [exact Hreset |].
  exact (statistics_after_reset (sample_object [1; 2; 3]%float) 0%float Hreset).
Defined.

(** ** Samples that are equal, samples that are NaN *)

Section Identical.
Context {A : Type} {N : PyNum A} {O : PyNumOrder (A:=A)}.

Lemma fold_min_repeat (x : A) (n : nat) :
  fold_left (fun m item => if num_lt item m then item else m) (repeat x n) x = x.
Proof.
  induction n as [| n IH]; [reflexivity |].
  simpl. rewrite num_lt_irrefl. exact IH.
Qed.

Lemma fold_max_repeat (x : A) (n : nat) :
  fold_left (fun m item => if num_lt m item then item else m) (repeat x n) x = x.
Proof.
  induction n as [| n IH]; [reflexivity |].
  simpl. rewrite num_lt_irrefl. exact IH.
Qed.

(** X11.  On a buffer of one sample repeated, the minimum and the maximum
    are both that sample over 1000 (a NaN included). *)
Theorem extremes_of_identical_samples (self : PPK2PowerSupply A) (x : A)
    (n : nat) :
  current_measurements self = repeat x (S n) ->
  get_min_current_mA self = Ok (num_div x (num_of_Z 1000)) /\
  get_max_current_mA self = Ok (num_div x (num_of_Z 1000)).
Proof.
  intros Hbuf. unfold get_min_current_mA, get_max_current_mA.
  rewrite Hbuf. cbn [repeat py_min py_max].
  rewrite fold_min_repeat, fold_max_repeat. split; reflexivity.
Qed.
End Identical.

Lemma extremes_of_identical_samples_witness :
  current_measurements (sample_object [tenth; tenth; tenth]) = repeat tenth 3 /\
  get_min_current_mA (sample_object [tenth; tenth; tenth])
  = Ok (num_div tenth (num_of_Z 1000)) /\
  get_max_current_mA (sample_object [tenth; tenth; tenth])
  = Ok (num_div tenth (num_of_Z 1000)).
Proof.
  split; [reflexivity |].
  exact (@extremes_of_identical_samples float float_num float_order
           (sample_object [tenth; tenth; tenth]) tenth 2 eq_refl).
Defined.

(** *** NaN *)

Lemma SFcompare_self (a : spec_float) :
  SFcompare a a = match a with S754_nan => None | _ => Some Eq end.
Proof.
  destruct a as [s | s | | s m e]; try (destruct s); simpl;
    rewrite ?Z.compare_refl, ?Pcompare_refl; reflexivity.
Qed.

Lemma is_nan_spec (x : float) : is_nan x = true <-> Prim2SF x = S754_nan.
Proof.
  unfold is_nan. rewrite FloatAxioms.eqb_spec. unfold SFeqb.
  rewrite SFcompare_self.
  destruct (Prim2SF x); simpl; split; congruence.
Qed.

Lemma ltb_nan_l (x y : float) : is_nan x = true -> (x <? y)%float = false.
Proof.
  intros Hx. apply is_nan_spec in Hx.
  rewrite FloatAxioms.ltb_spec, Hx. reflexivity.
Qed.

Lemma ltb_nan_r (x y : float) : is_nan y = true -> (x <? y)%float = false.
Proof.
  intros Hy. apply is_nan_spec in Hy.
  rewrite FloatAxioms.ltb_spec, Hy. unfold SFltb.
  destruct (Prim2SF x); reflexivity.
Qed.

Lemma add_nan_l (x y : float) : is_nan x = true -> is_nan (x + y) = true.
Proof.
  intros Hx. apply is_nan_spec in Hx. apply is_nan_spec.
  rewrite add_spec, Hx. reflexivity.
Qed.

Lemma add_nan_r (x y : float) : is_nan y = true -> is_nan (x + y) = true.
Proof.
  intros Hy. apply is_nan_spec in Hy. apply is_nan_spec.
  rewrite add_spec, Hy. unfold SF64add, SFadd. destruct (Prim2SF x); reflexivity.
Qed.

Lemma div_nan_l (x y : float) : is_nan x = true -> is_nan (x / y) = true.
Proof.
  intros Hx. apply is_nan_spec in Hx. apply is_nan_spec.
  rewrite div_spec, Hx. reflexivity.
Qed.

Lemma fold_min_nan_first (x : float) (rest : list float) :
  is_nan x = true ->
  fold_left (fun m item => if (item <? m)%float then item else m) rest x = x.
Proof.
  intros Hx. induction rest as [| y rest IH]; [reflexivity |].
  simpl. rewrite (ltb_nan_r y x Hx). exact IH.
Qed.

Lemma fold_max_nan_first (x : float) (rest : list float) :
  is_nan x = true ->
  fold_left (fun m item => if (m <? item)%float then item else m) rest x = x.
Proof.
  intros Hx. induction rest as [| y rest IH]; [reflexivity |].
  simpl. rewrite (ltb_nan_l x y Hx). exact IH.
Qed.

Lemma fold_min_skips_nan (rest : list float) (x : float) :
  fold_left (fun m item => if (item <? m)%float then item else m) rest x
  = fold_left (fun m item => if (item <? m)%float then item else m)
      (filter not_nan rest) x.
Proof.
  revert x. induction rest as [| y rest IH]; intros x; [reflexivity |].
  simpl. unfold not_nan at 1. destruct (is_nan y) eqn:Hy; simpl.
  - rewrite (ltb_nan_l y x Hy). apply IH.
  - apply IH.
Qed.

Lemma fold_max_skips_nan (rest : list float) (x : float) :
  fold_left (fun m item => if (m <? item)%float then item else m) rest x
  = fold_left (fun m item => if (m <? item)%float then item else m)
      (filter not_nan rest) x.
Proof.
  revert x. induction rest as [| y rest IH]; intros x; [reflexivity |].
  simpl. unfold not_nan at 1. destruct (is_nan y) eqn:Hy; simpl.
  - rewrite (ltb_nan_r x y Hy). apply IH.
  - apply IH.
Qed.

(** X12.  How the minimum and the maximum treat a NaN depends on where it
    is.  A NaN that is not the first sample of the buffer is passed over:
    the two queries return what they return without it.  A NaN that is the
    first sample is what both return (over 1000, still a NaN), whatever
    follows it. *)
Theorem extremes_and_nan (self : PPK2PowerSupply float) (x : float)
    (rest : list float) :
  current_measurements self = x :: rest ->
  get_min_current_mA self
  = get_min_current_mA (with_buffer self (x :: filter not_nan rest)) /\
  get_max_current_mA self
  = get_max_current_mA (with_buffer self (x :: filter not_nan rest)) /\
  (is_nan x = true ->
   get_min_current_mA self = Ok (x / 1000)%float /\
   get_max_current_mA self = Ok (x / 1000)%float /\
   is_nan (x / 1000) = true).
Proof.
  intros Hbuf. unfold get_min_current_mA, get_max_current_mA.
  rewrite Hbuf. cbn [with_buffer current_measurements py_min py_max].
  change (@num_lt float float_num) with PrimFloat.ltb.
  split; [now rewrite (fold_min_skips_nan rest x) |].
  split; [now rewrite (fold_max_skips_nan rest x) |].
  intros Hx. rewrite (fold_min_nan_first x rest Hx), (fold_max_nan_first x rest Hx).
  split; [reflexivity |]. split; [reflexivity |].
  now apply div_nan_l.
Qed.

Lemma extremes_and_nan_witness :
  current_measurements (sample_object [nan; 5; nan; 7]%float)
  = nan :: [5; nan; 7]%float /\
  is_nan nan = true /\
  get_min_current_mA (sample_object [nan; 5; nan; 7]%float)
  = Ok (nan / 1000)%float /\
  get_min_current_mA (sample_object [5; nan; 7]%float)
  = get_min_current_mA
      (with_buffer (sample_object [5; nan; 7]%float)
         (5%float :: filter not_nan [nan; 7]%float)).
Proof.
  split; [reflexivity |]. split; [reflexivity |]. split.
  - exact (proj1 (proj2 (proj2
             (@extremes_and_nan (sample_object [nan; 5; nan; 7]%float)
                nan [5; nan; 7]%float eq_refl)) eq_refl)).
  - exact (proj1 (@extremes_and_nan (sample_object [5; nan; 7]%float)
                    5%float [nan; 7]%float eq_refl)).
Defined.

Lemma sum_nan_acc (xs : list float) (acc : float) :
  is_nan acc = true -> is_nan (fold_left PrimFloat.add xs acc) = true.
Proof.
  revert acc. induction xs as [| y xs IH]; intros acc Hacc; [exact Hacc |].
  simpl. apply IH, add_nan_l, Hacc.
Qed.

Lemma sum_nan_item (xs : list float) (acc y : float) :
  In y xs -> is_nan y = true ->
  is_nan (fold_left PrimFloat.add xs acc) = true.
Proof.
  revert acc. induction xs as [| z xs IH]; intros acc Hin Hy; [contradiction |].
  simpl. destruct Hin as [-> | Hin].
  - apply sum_nan_acc, add_nan_r, Hy.
  - now apply IH.
Qed.

(** X13.  One NaN anywhere in the buffer makes the average a NaN. *)
Theorem average_with_a_nan (self : PPK2PowerSupply float) (y : float) :
  In y (current_measurements self) ->
  is_nan y = true ->
  exists a : float,
    get_average_current_mA self = Ok a /\ is_nan a = true.
Proof.
  intros Hin Hy.
  assert (Hne : current_measurements self <> [])
    by (intros E; rewrite E in Hin; exact Hin).
  rewrite (average_unfold self Hne). eexists. split; [reflexivity |].
  apply div_nan_l, div_nan_l.
  exact (@sum_nan_item (current_measurements self) (float_of_Z 0) y Hin Hy).
Qed.

Lemma average_with_a_nan_witness :
  In nan (current_measurements (sample_object [1; nan; 3]%float)) /\
  is_nan nan = true /\
  exists a : float,
    get_average_current_mA (sample_object [1; nan; 3]%float) = Ok a /\
    is_nan a = true.
Proof.
  assert (Hin : In nan (current_measurements (sample_object [1; nan; 3]%float)))
    by (right; left; reflexivity).
  split; [exact Hin |]. split; [reflexivity |].
  exact (@average_with_a_nan (sample_object [1; nan; 3]%float) nan Hin eq_refl).
Defined.

(** *** The order of the samples *)

Lemma SFeqb_of_leb (a b : spec_float) :
  SFleb a b = true -> SFleb b a = true -> SFeqb a b = true.
Proof.
  unfold SFleb, SFeqb. rewrite (SFcompare_opp a b).
  destruct (SFcompare a b) as [[| |] |]; simpl; congruence.
Qed.

Lemma SFeqb_same_or_zeros (a b : spec_float) :
  SFeqb a b = true ->
  a = b \/ exists s s', a = S754_zero s /\ b = S754_zero s'.
Proof.
  unfold SFeqb.
  destruct a as [s | s | | s m e], b as [s' | s' | | s' m' e'];
    try (destruct s); try (destruct s'); simpl; try discriminate; auto;
    try solve [intros _; right; eauto].
  - destruct (Z.compare_spec e e'); try discriminate.
    destruct (Pos.compare_cont Eq m m') eqn:Em; simpl; try discriminate.
    intros _. apply Pcompare_Eq_eq in Em. subst. left. reflexivity.
  - destruct (Z.compare_spec e e'); try discriminate.
    destruct (Pos.compare_cont Eq m m') eqn:Em; simpl; try discriminate.
    intros _. apply Pcompare_Eq_eq in Em. subst. left. reflexivity.
Qed.

Lemma float_zero_spec (x : float) (s : bool) :
  Prim2SF x = S754_zero s -> (x =? 0)%float = true.
Proof.
  intros Hx. rewrite FloatAxioms.eqb_spec, Hx. reflexivity.
Qed.

(** Two floats that compare equal are the same float or two zeros, and so
    are their quotients by 1000. *)
Lemma quotients_of_equal_floats (m m' : float) :
  (m <=? m')%float = true -> (m' <=? m)%float = true ->
  (m / 1000 = m' / 1000)%float \/
  ((m / 1000 =? 0)%float = true /\ (m' / 1000 =? 0)%float = true).
Proof.
  rewrite !FloatAxioms.leb_spec. intros H1 H2.
  destruct (SFeqb_same_or_zeros _ _ (SFeqb_of_leb _ _ H1 H2))
    as [Hsame | (s & s' & Hm & Hm')].
  - left. apply Prim2SF_inj in Hsame. now rewrite Hsame.
  - right. split.
    + apply (@float_zero_spec _ (xorb s false)).
      rewrite div_spec, Hm. reflexivity.
    + apply (@float_zero_spec _ (xorb s' false)).
      rewrite div_spec, Hm'. reflexivity.
Qed.

(** X14.  On buffers without NaN the minimum and the maximum do not depend
    on the order of the samples: on two buffers that are permutations of
    one another each query returns the same float, or two zeros (which may
    differ in sign). *)
Theorem extremes_ignore_the_order (self self' : PPK2PowerSupply float) :
  Permutation (current_measurements self) (current_measurements self') ->
  current_measurements self <> [] ->
  (forall y, In y (current_measurements self) -> is_nan y = false) ->
  exists a a' b b' : float,
    get_min_current_mA self = Ok a /\ get_min_current_mA self' = Ok a' /\
    get_max_current_mA self = Ok b /\ get_max_current_mA self' = Ok b' /\
    (a = a' \/ ((a =? 0)%float = true /\ (a' =? 0)%float = true)) /\
    (b = b' \/ ((b =? 0)%float = true /\ (b' =? 0)%float = true)).
Proof.
  intros Hperm Hne Hnan.
  assert (Hne' : current_measurements self' <> []).
  { intros E. rewrite E in Hperm. apply Permutation_sym in Hperm.
    apply Permutation_nil in Hperm. contradiction. }
  assert (Hnan' : forall y, In y (current_measurements self') ->
                            is_nan y = false).
  { intros y Hy. apply Hnan.
    exact (Permutation_in y (Permutation_sym Hperm) Hy). }
  destruct (float_min_max Hne) as (m & M & Hm & HM & Hmin & HMin & _ & Ht).
  destruct (float_min_max Hne') as (m' & M' & Hm' & HM' & Hmin' & HMin' & _ & Ht').
  specialize (Ht Hnan). specialize (Ht' Hnan').
  exists (m / 1000)%float, (m' / 1000)%float,
    (M / 1000)%float, (M' / 1000)%float.
  unfold get_min_current_mA, get_max_current_mA.
  rewrite Hm, Hm', HM, HM'.
  split; [reflexivity |]. split; [reflexivity |].
  split; [reflexivity |]. split; [reflexivity |].
  split; apply quotients_of_equal_floats.
  - apply Ht. exact (Permutation_in m' (Permutation_sym Hperm) Hmin').
  - apply Ht'. exact (Permutation_in m Hperm Hmin).
  - apply Ht'. exact (Permutation_in M Hperm HMin).
  - apply Ht. exact (Permutation_in M' (Permutation_sym Hperm) HMin').
Qed.

Lemma extremes_ignore_the_order_witness :
  Permutation (current_measurements (sample_object [3; 1; 2]%float))
    (current_measurements (sample_object [1; 2; 3]%float)) /\
  exists a a' b b' : float,
    get_min_current_mA (sample_object [3; 1; 2]%float) = Ok a /\
    get_min_current_mA (sample_object [1; 2; 3]%float) = Ok a' /\
    get_max_current_mA (sample_object [3; 1; 2]%float) = Ok b /\
    get_max_current_mA (sample_object [1; 2; 3]%float) = Ok b' /\
    (a = a' \/ ((a =? 0)%float = true /\ (a' =? 0)%float = true)) /\
    (b = b' \/ ((b =? 0)%float = true /\ (b' =? 0)%float = true)).
Proof.
  assert (Hperm : Permutation
                    (current_measurements (sample_object [3; 1; 2]%float))
                    (current_measurements (sample_object [1; 2; 3]%float))).
  { change (Permutation (3%float :: [1; 2]%float)
              ([1; 2]%float ++ 3%float :: [])).
    apply Permutation_cons_app. rewrite app_nil_r. apply Permutation_refl. }
  split; [exact Hperm |].
  apply (extremes_ignore_the_order
           (sample_object [3; 1; 2]%float) (sample_object [1; 2; 3]%float)
           Hperm).
  - discriminate.
  - intros y Hy. simpl in Hy.
    destruct Hy as [<- | [<- | [<- | []]]]; reflexivity.
Defined.

(** ** Mode, power and closing *)

Section Commands.
Context {A : Type} `{PyNum A}.
Variable d : Driver A.

Lemma power_cases (state : string) (st : machine A) :
  on_trace (call d (ToggleDUTPower state)) st
  = (match raises d (trace st) (ToggleDUTPower state) with
     | Some e => Raise e
     | None => Ok tt
     end,
     {| self := self st; trace := trace st ++ [ToggleDUTPower state] |}).
Proof.
  unfold on_trace, call. destruct (raises d (trace st) _); reflexivity.
Qed.

(** X15.  Switching the power or the mode does not touch the object:
    after [powerOn], [powerOff] or [setIsSupply], whether it returned or
    raised, the buffer, the flag, the port and the voltage are what they
    were, so the statistics are too.  [powerOn] and [powerOff] make one
    call each, the power toggle with "ON" and with "OFF", and raise exactly
    what that call raises. *)
Theorem commands_leave_the_object (s : bool) (st : machine A) :
  self (snd (powerOn d st)) = self st /\
  self (snd (powerOff d st)) = self st /\
  self (snd (setIsSupply d s st)) = self st /\
  trace (snd (powerOn d st)) = trace st ++ [ToggleDUTPower "ON"] /\
  trace (snd (powerOff d st)) = trace st ++ [ToggleDUTPower "OFF"] /\
  (forall e, fst (powerOn d st) = Raise e <->
             raises d (trace st) (ToggleDUTPower "ON") = Some e) /\
  (forall e, fst (powerOff d st) = Raise e <->
             raises d (trace st) (ToggleDUTPower "OFF") = Some e).
Proof.
  unfold powerOn, powerOff. rewrite !power_cases. cbn [fst snd self trace].
  split; [reflexivity |]. split; [reflexivity |]. split.
  { pose proof (setIsSupply_cases d s st) as Hc.
    destruct (num_int _) as [mV | e]; [| rewrite Hc; reflexivity].
    destruct (raises d (trace st) (SetSourceVoltage mV)); rewrite Hc;
      reflexivity. }
  split; [reflexivity |]. split; [reflexivity |].
  split; intros e;
    destruct (raises d (trace st) _); split; congruence.
Qed.

(** X16.  [close] sends the stop command first.  If that call raises,
    [close] ends there: the thread is not joined and the base class is not
    closed, although [measuring] has already been cleared.  If it does not,
    the thread is joined before the base class is closed, and what the base
    class raises is raised after both. *)
Theorem close_stops_before_it_joins (st : machine A) :
  (forall e, raises d (trace st) StopMeasuring = Some e ->
             close d st
             = (Raise e, {| self := set_measuring false (self st);
                            trace := trace st ++ [StopMeasuring] |})) /\
  (raises d (trace st) StopMeasuring = None ->
   trace (snd (close d st))
   = trace st ++ [StopMeasuring; ThreadJoin; SuperClose] /\
   forall e, fst (close d st) = Raise e <->
             raises d (trace st ++ [StopMeasuring; ThreadJoin]) SuperClose
             = Some e).
Proof.
  pose proof (close_cases d st) as Hc. split.
  - intros e He. rewrite He in Hc. exact Hc.
  - intros Hok. rewrite Hok in Hc. rewrite Hc. cbn [fst snd trace].
    split; [reflexivity |]. intros e.
    destruct (raises d (trace st ++ [StopMeasuring; ThreadJoin]) SuperClose);
      split; congruence.
Qed.
End Commands.

(** A device whose stop command raises. *)
Lemma close_stops_before_it_joins_witness :
  raises unstoppable_driver (trace (sample_machine [0%float])) StopMeasuring
  = Some (DriverError 5) /\
  close unstoppable_driver (sample_machine [0%float])
  = (Raise (DriverError 5),
     {| self := set_measuring false (self (sample_machine [0%float]));
        trace := trace (sample_machine [0%float]) ++ [StopMeasuring] |}).
Proof.
  split; [reflexivity |].
  exact (proj1 (close_stops_before_it_joins unstoppable_driver
                  (sample_machine [0%float])) (DriverError 5) eq_refl).
Defined.

(** ** A reset in the middle of an append *)

Module InterleavingRuns.
Import Interleaving.

(** X17.  The append of the loop is a load of the attribute, an extension
    in place of the list loaded, and a store of the attribute.  If the
    interpreter runs a whole reset between that load and that store, the
    reset is undone by the store: the buffer ends as the old list with the
    decoded samples appended, all history kept, and the one-element list
    the reset built is no longer the buffer.  A reset run after the store
    leaves the last decoded sample alone, as it should. *)
Theorem reset_between_load_and_store_is_lost {A} `{PyNum A}
    (buf decoded : list A) (dflt : A) :
  buf <> [] ->
  (exists s : cstate A,
      run [LoopLoad decoded; BeginReset; CallerStep; CallerStep; CallerStep;
           LoopExtend; LoopStore] (start buf) = Some s /\
      buffer s = buf ++ decoded /\
      objects s = [buf ++ decoded; [last buf dflt]] /\
      loop_at s = LoopIdle /\ caller_at s = CallerIdle) /\
  (exists s : cstate A,
      run [LoopLoad decoded; LoopExtend; LoopStore;
           BeginReset; CallerStep; CallerStep; CallerStep] (start buf) = Some s /\
      buffer s = [last (buf ++ decoded) dflt] /\
      loop_at s = LoopIdle /\ caller_at s = CallerIdle).
Proof.
  intros Hne. split.
  - destruct (exists_last Hne) as (init & x & ->).
    eexists. split.
    + cbn [run step start loop_at caller_at at_loop at_caller attr objects
             object_at nth].
      rewrite py_last_app.
      cbn [run step loop_at caller_at at_loop at_caller attr objects
             extend_object List.length]. reflexivity.
    + rewrite (last_last init x dflt). repeat split; reflexivity.
  - assert (Hne' : buf ++ decoded <> []).
    { intros E. apply app_eq_nil in E. tauto. }
    destruct (exists_last Hne') as (init & x & Hx).
    eexists. split.
    + cbn [run step start loop_at caller_at at_loop at_caller attr objects
             object_at nth extend_object].
      rewrite Hx, py_last_app.
      cbn [run step loop_at caller_at at_loop at_caller attr objects
             List.length]. reflexivity.
    + rewrite Hx, (last_last init x dflt). repeat split; reflexivity.
Qed.
End InterleavingRuns.

Lemma reset_between_load_and_store_is_lost_witness :
  [1; 2]%float <> [] /\
  exists s : Interleaving.cstate float,
    Interleaving.run
      [Interleaving.LoopLoad [3%float]; Interleaving.BeginReset;
       Interleaving.CallerStep; Interleaving.CallerStep;
       Interleaving.CallerStep; Interleaving.LoopExtend;
       Interleaving.LoopStore] (Interleaving.start [1; 2]%float) = Some s /\
    Interleaving.buffer s = [1; 2]%float ++ [3%float] /\
    Interleaving.objects s
    = [[1; 2]%float ++ [3%float]; [last [1; 2]%float 0%float]] /\
    Interleaving.loop_at s = Interleaving.LoopIdle /\
    Interleaving.caller_at s = Interleaving.CallerIdle.
Proof.
  assert (Hne : [1; 2]%float <> []) by discriminate.
  split; [exact Hne |].
  exact (proj1 (@InterleavingRuns.reset_between_load_and_store_is_lost
                  float float_num [1; 2]%float [3%float] 0%float Hne)).
Defined.
